(** * JARVIS assistant: transcript store, prompt assembly and turn protocol

    A shallow embedding of [jarvis/memory.py], [jarvis/prompt_controller.py],
    [jarvis/gemini_engine.py] and [jarvis/assistant.py].

    Python values are represented as follows.
    - [str] is a sequence of code points ([pystr]); surrogates are code
      points like any other, as in Python.
    - [int] is [Z]; list lengths are [nat].
    - The values [json] reads and writes form the type [pyval].
    - An exception is a class together with the text [str(e)] gives.
    - Objects are records, and a method is a function from the record
      before the call to the outcome and the record after it. *)

From Stdlib Require Import String Ascii.
From Stdlib Require Import List ZArith NArith Lia Bool.
From Stdlib Require Decimal.
Import ListNotations.

Set Implicit Arguments.

(** ** Strings *)

Definition pystr := list N.

(** A source literal. All literals of the program are ASCII. *)
Definition py (s : string) : pystr := map N_of_ascii (list_ascii_of_string s).

Fixpoint pystr_eqb (a b : pystr) : bool :=
  match a, b with
  | [], [] => true
  | x :: a', y :: b' => (x =? y)%N && pystr_eqb a' b'
  | _, _ => false
  end.

(** [sep.join(parts)] *)
Fixpoint join (sep : pystr) (parts : list pystr) : pystr :=
  match parts with
  | [] => []
  | [p] => p
  | p :: rest => p ++ sep ++ join sep rest
  end.

Definition quote : N := 34%N.
Definition backslash : N := 92%N.
Definition newline : pystr := [10%N].

(** [c.isspace()]: the code points Python treats as whitespace. *)
Definition isspace (c : N) : bool :=
  ((9 <=? c) && (c <=? 13) || (28 <=? c) && (c <=? 32)
   || (c =? 133) || (c =? 160) || (c =? 5760)
   || (8192 <=? c) && (c <=? 8202)
   || (c =? 8232) || (c =? 8233) || (c =? 8239) || (c =? 8287)
   || (c =? 12288))%N.

Fixpoint lstrip (s : pystr) : pystr :=
  match s with
  | c :: r => if isspace c then lstrip r else s
  | [] => []
  end.

(** [s.strip()] *)
Definition strip (s : pystr) : pystr := rev (lstrip (rev (lstrip s))).

(** Truth value of a string: [not s] holds of the empty string only. *)
Definition falsy (s : pystr) : bool :=
  match s with [] => true | _ => false end.

(** [needle in hay] for strings. *)
Fixpoint startswith (s prefix : pystr) : bool :=
  match prefix, s with
  | [], _ => true
  | p :: prefix', c :: s' => (p =? c)%N && startswith s' prefix'
  | _ :: _, [] => false
  end.

(** ** Lists *)

(** [l[i:]], with Python's treatment of a negative or too large index. *)
Definition slice_from {A : Type} (i : Z) (l : list A) : list A :=
  let n := Z.of_nat (length l) in
  let start := if (i <? 0)%Z then Z.max 0 (n + i) else Z.min i n in
  skipn (Z.to_nat start) l.

(** [sum(1 for x in l if p x)] *)
Definition count {A : Type} (p : A -> bool) (l : list A) : nat :=
  length (filter p l).

(** ** Exceptions *)

Inductive exn_class :=
| ValueError | RuntimeError | AttributeError | IOError
| UnicodeEncodeError | UnicodeDecodeError | OtherException.

Record exn := Exn { exn_cls : exn_class; exn_text : pystr }.

Definition is_RuntimeError (e : exn) : bool :=
  match exn_cls e with RuntimeError => true | _ => false end.

(** ** Numbers in text *)

Fixpoint uint_chars (u : Decimal.uint) : pystr :=
  match u with
  | Decimal.Nil => []
  | Decimal.D0 u => 48%N :: uint_chars u
  | Decimal.D1 u => 49%N :: uint_chars u
  | Decimal.D2 u => 50%N :: uint_chars u
  | Decimal.D3 u => 51%N :: uint_chars u
  | Decimal.D4 u => 52%N :: uint_chars u
  | Decimal.D5 u => 53%N :: uint_chars u
  | Decimal.D6 u => 54%N :: uint_chars u
  | Decimal.D7 u => 55%N :: uint_chars u
  | Decimal.D8 u => 56%N :: uint_chars u
  | Decimal.D9 u => 57%N :: uint_chars u
  end.

(** ["%d" % n] *)
Definition decimal (n : N) : pystr := uint_chars (N.to_uint n).

(** ["%0wd" % n] *)
Definition zfill (w : nat) (n : N) : pystr :=
  let d := decimal n in repeat 48%N (w - length d) ++ d.

(** One lower-case hexadecimal digit. *)
Definition hexdigit (d : N) : N :=
  (if d <? 10 then 48 + d else 87 + d)%N.

(** ["%04x" % c], for [c] below 65536. *)
Definition hex4 (c : N) : pystr :=
  [hexdigit (c / 4096 mod 16); hexdigit (c / 256 mod 16);
   hexdigit (c / 16 mod 16); hexdigit (c mod 16)]%N.

(** ** The clock

    [datetime.now()] yields a naive datetime; [isoformat] renders it as
    [YYYY-MM-DDTHH:MM:SS], followed by [.ffffff] when the microsecond part
    is not zero. *)

Record datetime := Datetime {
  year : N; month : N; day : N;
  hour : N; minute : N; second : N; microsecond : N
}.

Definition isoformat (d : datetime) : pystr :=
  zfill 4 (year d) ++ py "-" ++ zfill 2 (month d) ++ py "-" ++ zfill 2 (day d)
  ++ py "T" ++ zfill 2 (hour d) ++ py ":" ++ zfill 2 (minute d)
  ++ py ":" ++ zfill 2 (second d)
  ++ (if (microsecond d =? 0)%N then [] else py "." ++ zfill 6 (microsecond d)).

(** ** Values handled by [json] *)

#[warnings="-register-all"]
Inductive pyval :=
| PyNone
| PyBool (b : bool)
| PyNum (literal : pystr)      (* a number, kept as the text that denotes it *)
| PyStr (s : pystr)
| PyList (l : list pyval)
| PyDict (d : list (pystr * pyval)).  (* items in insertion order, keys distinct *)

(** [d.get(k)] *)
Fixpoint dict_get (k : pystr) (d : list (pystr * pyval)) : option pyval :=
  match d with
  | [] => None
  | (k', v) :: r => if pystr_eqb k k' then Some v else dict_get k r
  end.

(** [d[k] = v]: an existing key keeps its place. *)
Fixpoint dict_set (k : pystr) (v : pyval) (d : list (pystr * pyval))
  : list (pystr * pyval) :=
  match d with
  | [] => [(k, v)]
  | (k', v') :: r =>
      if pystr_eqb k k' then (k', v) :: r else (k', v') :: dict_set k v r
  end.

(** [type(v).__name__] *)
Definition type_name (v : pyval) : pystr :=
  match v with
  | PyNone => py "NoneType"
  | PyBool _ => py "bool"
  | PyNum l =>
      if existsb (fun c => (c =? 46) || (c =? 101) || (c =? 69) || (c =? 97)
                           || (c =? 110))%N l
      then py "float" else py "int"
  | PyStr _ => py "str"
  | PyList _ => py "list"
  | PyDict _ => py "dict"
  end.

(** ** The [json] codec

    [json.dump(data, f, indent=2, ensure_ascii=False)] hands the file one
    piece of text after another ([iterencode]); [json.load] decodes the
    whole text of a file ([loads]). *)

Module Json.

(** *** Encoding *)

Definition escape_char (c : N) : pystr :=
  (if c =? 34 then [92; 34]
   else if c =? 92 then [92; 92]
   else if c =? 10 then [92; 110]
   else if c =? 13 then [92; 114]
   else if c =? 9 then [92; 116]
   else if c =? 12 then [92; 102]
   else if c =? 8 then [92; 98]
   else if c <? 32 then 92 :: 117 :: hex4 c
   else [c])%N.

Definition encode_basestring (s : pystr) : pystr :=
  quote :: flat_map escape_char s ++ [quote].

Definition newline_indent (level : nat) : pystr :=
  10%N :: repeat 32%N (2 * level).

(** Values the encoder writes as one piece. A number is written as the
    text that denotes it. *)
Definition atom (v : pyval) : option pystr :=
  match v with
  | PyNone => Some (py "null")
  | PyBool true => Some (py "true")
  | PyBool false => Some (py "false")
  | PyNum l => Some l
  | PyStr s => Some (encode_basestring s)
  | PyList _ | PyDict _ => None
  end.

Section Encoders.

Variable enc : pyval -> list pystr.
Variable nl : pystr.

Fixpoint list_items (first : bool) (l : list pyval) : list pystr :=
  match l with
  | [] => []
  | v :: r =>
      let buf := (if first then py "[" else py ",") ++ nl in
      match atom v with
      | Some a => [buf ++ a]
      | None => buf :: enc v
      end ++ list_items false r
  end.

Fixpoint dict_items (first : bool) (d : list (pystr * pyval)) : list pystr :=
  match d with
  | [] => []
  | (k, v) :: r =>
      (if first then [] else [py "," ++ nl])
      ++ [encode_basestring k; py ": "]
      ++ match atom v with
         | Some a => [a]
         | None => enc v
         end
      ++ dict_items false r
  end.

End Encoders.

Definition iterencode_list (enc : pyval -> list pystr) (level : nat)
    (l : list pyval) : list pystr :=
  match l with
  | [] => [py "[]"]
  | _ => list_items enc (newline_indent (S level)) true l
         ++ [newline_indent level; py "]"]
  end.

Definition iterencode_dict (enc : pyval -> list pystr) (level : nat)
    (d : list (pystr * pyval)) : list pystr :=
  match d with
  | [] => [py "{}"]
  | _ => [py "{"; newline_indent (S level)]
         ++ dict_items enc (newline_indent (S level)) true d
         ++ [newline_indent level; py "}"]
  end.

(** The pieces of text the encoder yields, in order, for a value at the
    given nesting level. *)
Fixpoint iterencode (level : nat) (v : pyval) {struct v} : list pystr :=
  match v with
  | PyList l => iterencode_list (iterencode (S level)) level l
  | PyDict d => iterencode_dict (iterencode (S level)) level d
  | _ => match atom v with Some a => [a] | None => [] end
  end.

Definition dumps (v : pyval) : pystr := concat (iterencode 0 v).

(** *** Decoding *)

Definition is_ws (c : N) : bool :=
  ((c =? 32) || (c =? 9) || (c =? 10) || (c =? 13))%N.

Fixpoint skip_ws (s : pystr) : pystr :=
  match s with
  | c :: r => if is_ws c then skip_ws r else s
  | [] => []
  end.

Definition hexval (c : N) : option N :=
  (if (48 <=? c) && (c <=? 57) then Some (c - 48)
   else if (97 <=? c) && (c <=? 102) then Some (c - 87)
   else if (65 <=? c) && (c <=? 70) then Some (c - 55)
   else None)%N.

Definition hex4val (a b c d : N) : option N :=
  match hexval a, hexval b, hexval c, hexval d with
  | Some a, Some b, Some c, Some d => Some (((a * 16 + b) * 16 + c) * 16 + d)%N
  | _, _, _, _ => None
  end.

(** The character a backslash escape other than [\u] stands for. *)
Definition unescape (c : N) : option N :=
  (if c =? 34 then Some 34
   else if c =? 92 then Some 92
   else if c =? 47 then Some 47
   else if c =? 98 then Some 8
   else if c =? 102 then Some 12
   else if c =? 110 then Some 10
   else if c =? 114 then Some 13
   else if c =? 116 then Some 9
   else None)%N.

Definition high_surrogate (c : N) : bool := ((55296 <=? c) && (c <=? 56319))%N.
Definition low_surrogate (c : N) : bool := ((56320 <=? c) && (c <=? 57343))%N.

(** [scanstring], strict: the text after an opening quote, up to and
    including the closing quote. [acc] holds the characters read so far, last
    one first. *)
Fixpoint scanstring (s : pystr) (acc : pystr) {struct s}
  : option (pystr * pystr) :=
  match s with
  | [] => None
  | c :: r =>
      if (c =? quote)%N then Some (rev acc, r)
      else if (c =? backslash)%N then
        match r with
        | [] => None
        | esc :: r1 =>
            if (esc =? 117)%N then
              match r1 with
              | h1 :: h2 :: h3 :: h4 :: r2 =>
                  match hex4val h1 h2 h3 h4 with
                  | None => None
                  | Some uni =>
                      if high_surrogate uni then
                        match r2 with
                        | b :: u :: r3 =>
                            if ((b =? backslash) && (u =? 117))%N then
                              match r3 with
                              | g1 :: g2 :: g3 :: g4 :: r4 =>
                                  match hex4val g1 g2 g3 g4 with
                                  | None => None
                                  | Some uni2 =>
                                      if low_surrogate uni2
                                      then scanstring r4
                                             ((65536 + ((uni - 55296) * 1024
                                                        + (uni2 - 56320)))%N
                                              :: acc)
                                      else scanstring r2 (uni :: acc)
                                  end
                              | _ => None
                              end
                            else scanstring r2 (uni :: acc)
                        | _ => scanstring r2 (uni :: acc)
                        end
                      else scanstring r2 (uni :: acc)
                  end
              | _ => None
              end
            else
              match unescape esc with
              | Some ch => scanstring r1 (ch :: acc)
              | None => None
              end
        end
      else if (c <? 32)%N then None
      else scanstring r (c :: acc)
  end.

Definition is_digit (c : N) : bool := ((48 <=? c) && (c <=? 57))%N.

Fixpoint span_digits (s : pystr) : pystr * pystr :=
  match s with
  | c :: r =>
      if is_digit c
      then let (d, r') := span_digits r in (c :: d, r')
      else ([], s)
  | [] => ([], [])
  end.

(** The number at the head of [s]: an optional minus sign, then a zero or a
    run of digits that does not start with zero, then optionally a point and
    digits, then optionally an exponent. *)
Definition match_number (s : pystr) : option (pystr * pystr) :=
  let (sign, s1) :=
    match s with
    | c :: r => if (c =? 45)%N then ([45%N], r) else ([], s)
    | [] => ([], [])
    end in
  match s1 with
  | [] => None
  | c :: r =>
      if is_digit c then
        let (int, s2) :=
          if (c =? 48)%N then ([c], r)
          else let (d, r') := span_digits r in (c :: d, r') in
        let (frac, s3) :=
          match s2 with
          | p :: r2 =>
              if (p =? 46)%N then
                match span_digits r2 with
                | ([], _) => ([], s2)
                | (d, r') => (p :: d, r')
                end
              else ([], s2)
          | [] => ([], s2)
          end in
        let (exp, s4) :=
          match s3 with
          | e :: r3 =>
              if ((e =? 101) || (e =? 69))%N then
                let (sg, r4) :=
                  match r3 with
                  | g :: r' =>
                      if ((g =? 43) || (g =? 45))%N then ([g], r') else ([], r3)
                  | [] => ([], r3)
                  end in
                match span_digits r4 with
                | ([], _) => ([], s3)
                | (d, r') => (e :: sg ++ d, r')
                end
              else ([], s3)
          | [] => ([], s3)
          end in
        Some (sign ++ int ++ frac ++ exp, s4)
      else None
  end.

Definition parser := pystr -> option (pyval * pystr).

Definition literal (word : pystr) (v : pyval) (s : pystr)
  : option (pyval * pystr) :=
  if startswith s word then Some (v, skipn (length word) s) else None.

Section Scanners.

Variable scan : parser.

(** The elements of an array; [s] starts at an element. *)
Fixpoint array_items (n : nat) (s : pystr) (acc : list pyval)
  : option (list pyval * pystr) :=
  match n with
  | O => None
  | S n' =>
      match scan s with
      | None => None
      | Some (v, s1) =>
          match skip_ws s1 with
          | c :: s2 =>
              if (c =? 93)%N then Some (rev (v :: acc), s2)
              else if (c =? 44)%N
                   then array_items n' (skip_ws s2) (v :: acc)
                   else None
          | [] => None
          end
      end
  end.

(** [JSONArray]: the text after an opening bracket. *)
Definition JSONArray (s : pystr) : option (pyval * pystr) :=
  match skip_ws s with
  | c :: r =>
      if (c =? 93)%N then Some (PyList [], r)
      else match array_items (length s) (c :: r) [] with
           | Some (l, r') => Some (PyList l, r')
           | None => None
           end
  | [] => None
  end.

(** The items of an object; [s] starts after the opening quote of a key. *)
Fixpoint object_items (n : nat) (s : pystr) (acc : list (pystr * pyval))
  : option (list (pystr * pyval) * pystr) :=
  match n with
  | O => None
  | S n' =>
      match scanstring s [] with
      | None => None
      | Some (key, s1) =>
          match skip_ws s1 with
          | c :: s2 =>
              if (c =? 58)%N then
                match scan (skip_ws s2) with
                | None => None
                | Some (v, s3) =>
                    match skip_ws s3 with
                    | c' :: s4 =>
                        if (c' =? 125)%N then Some (dict_set key v acc, s4)
                        else if (c' =? 44)%N then
                          match skip_ws s4 with
                          | q :: s5 =>
                              if (q =? quote)%N
                              then object_items n' s5 (dict_set key v acc)
                              else None
                          | [] => None
                          end
                        else None
                    | [] => None
                    end
                end
              else None
          | [] => None
          end
      end
  end.

(** [JSONObject]: the text after an opening brace. *)
Definition JSONObject (s : pystr) : option (pyval * pystr) :=
  match skip_ws s with
  | c :: r =>
      if (c =? quote)%N then
        match object_items (length s) r [] with
        | Some (d, r') => Some (PyDict d, r')
        | None => None
        end
      else if (c =? 125)%N then Some (PyDict [], r)
      else None
  | [] => None
  end.

End Scanners.

(** [scan_once]: one value at the head of [s]. [depth] bounds the nesting. *)
Fixpoint scan_once (depth : nat) (s : pystr) : option (pyval * pystr) :=
  match depth with
  | O => None
  | S d =>
      match s with
      | [] => None
      | c :: r =>
          if (c =? quote)%N then
            match scanstring r [] with
            | Some (str, r') => Some (PyStr str, r')
            | None => None
            end
          else if (c =? 123)%N then JSONObject (scan_once d) r
          else if (c =? 91)%N then JSONArray (scan_once d) r
          else if startswith s (py "null") then literal (py "null") PyNone s
          else if startswith s (py "true") then literal (py "true") (PyBool true) s
          else if startswith s (py "false")
               then literal (py "false") (PyBool false) s
          else
            match match_number s with
            | Some (l, r') => Some (PyNum l, r')
            | None =>
                if startswith s (py "NaN")
                then literal (py "NaN") (PyNum (py "NaN")) s
                else if startswith s (py "Infinity")
                then literal (py "Infinity") (PyNum (py "Infinity")) s
                else if startswith s (py "-Infinity")
                then literal (py "-Infinity") (PyNum (py "-Infinity")) s
                else None
            end
      end
  end.

(** [json.loads]: [None] stands for [JSONDecodeError]. No text nests deeper
    than it is long. *)
Definition loads (s : pystr) : option pyval :=
  if startswith s [65279%N] then None
  else
    match scan_once (S (length s)) (skip_ws s) with
    | Some (v, r) =>
        match skip_ws r with
        | [] => Some v
        | _ :: _ => None
        end
    | None => None
    end.

End Json.

(** ** The file behind [memory_file] and the console

    A file is described by what opening and reading it does. Text is written
    through a UTF-8 encoder, which refuses surrogates; line ends are written
    and read unchanged. *)

Inductive file_state :=
| Absent                    (* [os.path.exists] is false *)
| Unreadable (e : pystr)    (* opening or reading raises [IOError], text [e] *)
| Undecodable (e : pystr)   (* the bytes read are not UTF-8 *)
| Text (s : pystr).

(** What [print] has shown. The text of a [JSONDecodeError] is left out. *)
Inductive warning :=
| could_not_load_json
| could_not_load_io (e : pystr)
| could_not_save (e : pystr).

Definition is_surrogate (c : N) : bool := ((55296 <=? c) && (c <=? 57343))%N.

(** The first run of surrogates of [s]: where it starts, counted from [pos],
    how long it is and its first character. *)
Fixpoint surrogate_run (s : pystr) (pos : N) : option (N * N * N) :=
  match s with
  | [] => None
  | c :: r =>
      if is_surrogate c
      then
        let fix run (s : pystr) : N :=
          match s with
          | c' :: r' => if is_surrogate c' then (1 + run r')%N else 0%N
          | [] => 0%N
          end in
        Some (pos, (1 + run r)%N, c)
      else surrogate_run r (pos + 1)%N
  end.

(** The text of the [UnicodeEncodeError] that writing [chunk] raises. *)
Definition encode_error (chunk : pystr) : option pystr :=
  match surrogate_run chunk 0 with
  | None => None
  | Some (start, len, c) =>
      Some (if (len =? 1)%N
            then py "'utf-8' codec can't encode character '\u" ++ hex4 c
                 ++ py "' in position " ++ decimal start
                 ++ py ": surrogates not allowed"
            else py "'utf-8' codec can't encode characters in position "
                 ++ decimal start ++ py "-" ++ decimal (start + len - 1)
                 ++ py ": surrogates not allowed")
  end.

(** [f.write(chunk)] for each chunk in turn: the text that reached the file,
    and the exception that stopped the writing, if any. *)
Fixpoint write_chunks (chunks : list pystr) (written : pystr)
  : pystr * option exn :=
  match chunks with
  | [] => (written, None)
  | c :: r =>
      match encode_error c with
      | Some msg => (written, Some (Exn UnicodeEncodeError msg))
      | None => write_chunks r (written ++ c)
      end
  end.

(** ** [jarvis/memory.py] *)

Record Message := Msg { role : pystr; message : pystr; timestamp : pystr }.

(** The dictionary a message is. *)
Definition msg_val (m : Message) : pyval :=
  PyDict [(py "role", PyStr (role m));
          (py "message", PyStr (message m));
          (py "timestamp", PyStr (timestamp m))].

Record statistics := Stats {
  total_messages : nat; user_messages : nat; assistant_messages : nat
}.

(** What running [_load_from_file] produces: the value bound to
    [self.conversation] and the warnings printed, or the exception that
    escapes. *)
Inductive load_outcome :=
| Loaded (conversation : pyval) (printed : list warning)
| LoadRaises (e : exn).

Module Memory.

(** The object, together with the part of the world its methods touch: the
    file at [memory_file], whether that file can be opened for writing, the
    clock, and the console. *)
Record t := Make {
  max_history : Z;
  conversation : list Message;
  memory_file : file_state;
  write_error : option pystr;   (* text of the [IOError] of [open(.., 'w')] *)
  clock : nat -> datetime;      (* successive readings of [datetime.now()] *)
  ticks : nat;                  (* readings taken so far *)
  console : list warning
}.

Definition set_conversation (c : list Message) (m : t) : t :=
  Make (max_history m) c (memory_file m) (write_error m) (clock m) (ticks m)
       (console m).

Definition set_memory_file (f : file_state) (m : t) : t :=
  Make (max_history m) (conversation m) f (write_error m) (clock m) (ticks m)
       (console m).

Definition print_warning (w : warning) (m : t) : t :=
  Make (max_history m) (conversation m) (memory_file m) (write_error m)
       (clock m) (ticks m) (console m ++ [w]).

(** [datetime.now().isoformat()] *)
Definition now (m : t) : pystr * t :=
  (isoformat (clock m (ticks m)),
   Make (max_history m) (conversation m) (memory_file m) (write_error m)
        (clock m) (S (ticks m)) (console m)).

Definition _load_from_file (file : file_state) : load_outcome :=
  match file with
  | Absent => Loaded (PyList []) []
  | Unreadable e => Loaded (PyList []) [could_not_load_io e]
  | Undecodable e => LoadRaises (Exn UnicodeDecodeError e)
  | Text s =>
      match Json.loads s with
      | None => Loaded (PyList []) [could_not_load_json]
      | Some (PyDict d) =>
          match dict_get (py "messages") d with
          | Some v => Loaded v []
          | None => Loaded (PyList []) []
          end
      | Some data =>
          LoadRaises (Exn AttributeError
                        (py "'" ++ type_name data
                         ++ py "' object has no attribute 'get'"))
      end
  end.

(** The constructor stores its arguments and runs [_load_from_file]. *)
Definition __init__ (file : file_state) (max_history : Z) : load_outcome :=
  _load_from_file file.

(** The document [_save_to_file] dumps. *)
Definition document (conv : list Message) (last_updated : pystr) : pyval :=
  PyDict [(py "messages", PyList (map msg_val conv));
          (py "last_updated", PyStr last_updated)].

Definition _save_to_file (m : t) : option exn * t :=
  let (stamp, m1) := now m in
  match write_error m1 with
  | Some e => (None, print_warning (could_not_save e) m1)
  | None =>
      let (text, err) :=
        write_chunks (Json.iterencode 0 (document (conversation m1) stamp)) [] in
      (err, set_memory_file (Text text) m1)
  end.

Definition add (role message : pystr) (m : t) : option exn * t :=
  if negb (pystr_eqb role (py "user") || pystr_eqb role (py "assistant"))
  then (Some (Exn ValueError (py "Role must be either 'user' or 'assistant'")),
        m)
  else
    let (stamp, m1) := now m in
    let conv := conversation m1 ++ [Msg role message stamp] in
    let conv :=
      if (Z.of_nat (length conv) >? max_history m1)%Z
      then slice_from (- max_history m1) conv
      else conv in
    _save_to_file (set_conversation conv m1).

Definition get_history (last_n : option Z) (m : t) : list Message :=
  match last_n with
  | None => conversation m
  | Some n => if (n >? 0)%Z then slice_from (- n) (conversation m) else []
  end.

Definition clear (m : t) : option exn * t :=
  _save_to_file (set_conversation [] m).

Definition get_context_for_prompt (last_n : Z) (m : t) : pystr :=
  match get_history (Some last_n) m with
  | [] => []
  | history =>
      join newline
        (py "Previous conversation:"
         :: map (fun msg =>
                   (if pystr_eqb (role msg) (py "user")
                    then py "User" else py "Assistant")
                   ++ py ": " ++ message msg)
                history)
  end.

Definition get_statistics (m : t) : statistics :=
  Stats (length (conversation m))
        (count (fun msg => pystr_eqb (role msg) (py "user")) (conversation m))
        (count (fun msg => pystr_eqb (role msg) (py "assistant"))
               (conversation m)).

(** The label of a message in the formatted history and in an export. *)
Definition role_name (msg : Message) : pystr :=
  if pystr_eqb (role msg) (py "user") then py "User" else py "JARVIS".

Definition get_formatted_history (last_n : option Z) (m : t) : pystr :=
  match get_history last_n m with
  | [] => py "No conversation history."
  | history =>
      join newline
        (map (fun msg => role_name msg ++ py ": " ++ message msg) history)
  end.

(** [strftime("%Y%m%d_%H%M%S")]; the year is written with all its digits,
    which are four for the years a clock gives. *)
Definition strftime (d : datetime) : pystr :=
  decimal (year d) ++ zfill 2 (month d) ++ zfill 2 (day d) ++ py "_"
  ++ zfill 2 (hour d) ++ zfill 2 (minute d) ++ zfill 2 (second d).

(** What [export_conversation] hands to [f.write], call by call. *)
Definition export_chunks (conv : list Message) : list pystr :=
  [py "JARVIS Conversation Export" ++ newline;
   repeat 61%N 50 ++ newline ++ newline]
  ++ flat_map
       (fun msg =>
          [py "[" ++ timestamp msg ++ py "] " ++ role_name msg ++ py ":"
           ++ newline;
           message msg ++ newline ++ newline;
           repeat 45%N 50 ++ newline ++ newline])
       conv.

(** [open_error] is the text of the [IOError] that opening the export file
    for writing raises, if it does. The result is the path returned or the
    exception raised, the text that reached the export file when it was
    opened, and the store afterwards. *)
Definition export_conversation (filename : option pystr)
    (open_error : option pystr) (m : t)
  : (exn + pystr) * option pystr * t :=
  let (path, m1) :=
    match filename with
    | Some f => (f, m)
    | None =>
        (py "conversation_export_" ++ strftime (clock m (ticks m))
         ++ py ".txt",
         Make (max_history m) (conversation m) (memory_file m) (write_error m)
              (clock m) (S (ticks m)) (console m))
    end in
  match open_error with
  | Some e =>
      (inl (Exn RuntimeError (py "Failed to export conversation: " ++ e)),
       None, m1)
  | None =>
      match write_chunks (export_chunks (conversation m1)) [] with
      | (text, Some e) => (inl e, Some text, m1)
      | (text, None) => (inr path, Some text, m1)
      end
  end.

End Memory.

(** ** [jarvis/prompt_controller.py] *)

Inductive role_key := general | tutor | coder | mentor.

Module PromptController.

Definition general_prompt : pystr :=
  join newline
    [py "You are JARVIS, an advanced AI assistant inspired by Iron Man's AI companion.";
     py "You are intelligent, helpful, professional yet friendly, and always ready to assist.";
     [];
     py "Key traits:";
     py "- Professional but approachable tone";
     py "- Clear and concise explanations";
     py "- Proactive in offering help";
     py "- Admit when you don't know something";
     py "- Focus on being genuinely helpful";
     [];
     py "Address the user respectfully and provide thoughtful, accurate responses."].

Definition tutor_prompt : pystr :=
  join newline
    [py "You are JARVIS in Tutor Mode, an expert educational AI assistant.";
     [];
     py "Your role:";
     py "- Break down complex topics into understandable chunks";
     py "- Use analogies and examples to explain concepts";
     py "- Encourage critical thinking with guiding questions";
     py "- Adapt explanations to the learner's level";
     py "- Provide practice problems when appropriate";
     py "- Be patient and encouraging";
     [];
     py "Teaching approach:";
     py "- Start with fundamentals";
     py "- Build knowledge progressively";
     py "- Check understanding regularly";
     py "- Celebrate learning progress"].

Definition coder_prompt : pystr :=
  join newline
    [py "You are JARVIS in Coding Assistant Mode, a specialized programming expert.";
     [];
     py "Your expertise:";
     py "- Write clean, efficient, well-documented code";
     py "- Explain programming concepts clearly";
     py "- Debug and optimize code";
     py "- Suggest best practices and design patterns";
     py "- Cover multiple programming languages";
     py "- Provide complete, working code examples";
     [];
     py "Code quality standards:";
     py "- Follow language conventions";
     py "- Include helpful comments";
     py "- Consider edge cases";
     py "- Prioritize readability and maintainability";
     py "- Explain your code choices"].

Definition mentor_prompt : pystr :=
  join newline
    [py "You are JARVIS in Career Mentor Mode, a professional development advisor.";
     [];
     py "Your guidance:";
     py "- Provide career advice and insights";
     py "- Help with skill development planning";
     py "- Assist with resume and interview preparation";
     py "- Offer industry knowledge and trends";
     py "- Support goal setting and achievement";
     py "- Give constructive, actionable feedback";
     [];
     py "Mentoring style:";
     py "- Empathetic and supportive";
     py "- Honest and realistic";
     py "- Focus on long-term growth";
     py "- Encourage continuous learning";
     py "- Help identify strengths and opportunities"].

Record role_info := Role {
  name : pystr; description : pystr; system_prompt : pystr
}.

Definition ROLES (r : role_key) : role_info :=
  match r with
  | general => Role (py "JARVIS") (py "General AI Assistant") general_prompt
  | tutor =>
      Role (py "JARVIS (Tutor Mode)") (py "Learning & Education Assistant")
           tutor_prompt
  | coder =>
      Role (py "JARVIS (Coding Assistant)")
           (py "Programming & Development Helper") coder_prompt
  | mentor =>
      Role (py "JARVIS (Career Mentor)")
           (py "Career & Professional Development Guide") mentor_prompt
  end.

(** [role in self.ROLES], and the key found. *)
Definition lookup (role : pystr) : option role_key :=
  if pystr_eqb role (py "general") then Some general
  else if pystr_eqb role (py "tutor") then Some tutor
  else if pystr_eqb role (py "coder") then Some coder
  else if pystr_eqb role (py "mentor") then Some mentor
  else None.

Record t := Make { current_role : role_key }.

Definition invalid_role (role : pystr) : exn :=
  Exn ValueError
      (py "Invalid role: " ++ role
       ++ py ". Must be one of ['general', 'tutor', 'coder', 'mentor']").

Definition __init__ (default_role : pystr) : exn + t :=
  match lookup default_role with
  | Some r => inr (Make r)
  | None => inl (invalid_role default_role)
  end.

Definition set_role (role : pystr) (pc : t) : option exn * t :=
  match lookup role with
  | Some r => (None, Make r)
  | None => (Some (invalid_role role), pc)
  end.

Definition get_system_prompt (pc : t) : pystr :=
  system_prompt (ROLES (current_role pc)).

Definition build_prompt (pc : t) (user_input : pystr)
    (memory : option Memory.t) (include_context : bool) : pystr :=
  let prompt_parts := [get_system_prompt pc; []] in
  let prompt_parts :=
    match memory with
    | Some m =>
        if include_context then
          let context := Memory.get_context_for_prompt 10 m in
          if falsy context then prompt_parts
          else prompt_parts ++ [context; []]
        else prompt_parts
    | None => prompt_parts
    end in
  join newline (prompt_parts ++ [py "User: " ++ user_input; py "Assistant:"]).

Definition format_error_response (error_message : pystr) : pystr :=
  py "I apologize, but I encountered an issue: " ++ error_message
  ++ py ". Please try again or rephrase your request.".

(** The key of a role in [ROLES]. *)
Definition key_text (r : role_key) : pystr :=
  match r with
  | general => py "general"
  | tutor => py "tutor"
  | coder => py "coder"
  | mentor => py "mentor"
  end.

(** [name] and [description] of the current role. *)
Definition get_role_info (pc : t) : pystr * pystr :=
  (name (ROLES (current_role pc)), description (ROLES (current_role pc))).

Definition build_greeting (pc : t) : pystr :=
  let role_name := name (ROLES (current_role pc)) in
  match current_role pc with
  | general =>
      py "Hello! I'm " ++ role_name
      ++ py ", your personal AI assistant. How may I help you today?"
  | tutor =>
      py "Welcome! I'm " ++ role_name
      ++ py ", ready to help you learn and grow. What would you like to explore today?"
  | coder =>
      py "Greetings! I'm " ++ role_name
      ++ py ", your coding companion. What programming challenge can I help you with?"
  | mentor =>
      py "Hello! I'm " ++ role_name
      ++ py ", here to support your professional journey. What career goals are you working on?"
  end.

(** The dictionary from role key to description, in the order of [ROLES]. *)
Definition get_available_roles : list (pystr * pystr) :=
  map (fun r => (key_text r, description (ROLES r)))
      [general; tutor; coder; mentor].

End PromptController.

(** ** More on strings *)

(** [needle in hay] *)
Fixpoint contains (needle hay : pystr) : bool :=
  startswith hay needle
  || match hay with
     | [] => false
     | _ :: rest => contains needle rest
     end.

(** [s.lower()] for a string of ASCII characters. *)
Definition ascii_lower (s : pystr) : pystr :=
  map (fun c => if ((65 <=? c) && (c <=? 90))%N then (c + 32)%N else c) s.

(** ** [jarvis/gemini_engine.py]

    A generator is described by the values it yields when run to its end
    and the exception that ends it, if one does. *)

Definition generator := (list pystr * option exn)%type.

(** What the assistant asks of its engine. *)
Record Engine := {
  generate : pystr -> exn + pystr;
  generate_stream : pystr -> generator
}.

Module GeminiEngine.

(** [model] stands for [self.model.generate_content(prompt, stream=True)]
    iterated to its end: the [text] of each chunk received, and the exception
    raised by the call or during the iteration, if any. A chunk whose text is
    empty is passed over, and an exception becomes one more yielded text. *)
Definition generate_stream (model : pystr -> generator) (prompt : pystr)
  : generator :=
  let (texts, failure) := model prompt in
  (filter (fun text => negb (falsy text)) texts
   ++ match failure with
      | Some e => [py "Error in streaming: " ++ exn_text e]
      | None => []
      end,
   None).

(** The outcome of [health_check]. *)
Inductive health :=
| Healthy (model test_response : pystr)
| Unhealthy (model error : pystr).

Section Generate.

(** [str.lower]. *)
Variable lower : pystr -> pystr.

(** [model] stands for [self.model.generate_content(prompt)] followed by the
    reading of [response.text]: the exception either of them raises, or the
    text, which is empty when there is no response. Every caller passes the
    prompt alone. *)
Variable model : pystr -> exn + pystr.

Definition generate (prompt : pystr) : exn + pystr :=
  match model prompt with
  | inr text =>
      if falsy text
      then inr (py "I apologize, but I couldn't generate a response. Please try again.")
      else inr text
  | inl e =>
      let error_msg := lower (exn_text e) in
      if contains (py "api key") error_msg
      then inl (Exn RuntimeError
                  (py "Invalid API key. Please check your configuration."))
      else if contains (py "quota") error_msg
      then inl (Exn RuntimeError
                  (py "API quota exceeded. Please try again later."))
      else if contains (py "safety") error_msg
      then inr (py "I cannot provide a response to that request due to safety guidelines.")
      else inl (Exn RuntimeError (py "Generation failed: " ++ exn_text e))
  end.

Definition health_check (model_name : pystr) : health :=
  match generate (py "Hello") with
  | inr test_response =>
      Healthy model_name
        (if 50 <? length test_response
         then firstn 50 test_response ++ py "..."
         else test_response)
  | inl e => Unhealthy model_name (exn_text e)
  end.

End Generate.

End GeminiEngine.

(** ** [jarvis/assistant.py] *)

Module JarvisAssistant.

Record t := Make {
  engine : Engine;
  prompt_controller : PromptController.t;
  memory : Memory.t;
  _conversation_started : bool;
  requests : list pystr   (* the prompts handed to the engine so far *)
}.

Definition set_memory (m : Memory.t) (a : t) : t :=
  Make (engine a) (prompt_controller a) m (_conversation_started a)
       (requests a).

Definition sent (prompt : pystr) (a : t) : t :=
  Make (engine a) (prompt_controller a) (memory a) (_conversation_started a)
       (requests a ++ [prompt]).

Definition no_input : pystr :=
  py "I didn't receive any input. Please tell me how I can help you.".

(** [not user_input or not user_input.strip()] *)
Definition blank (user_input : pystr) : bool :=
  falsy user_input || falsy (strip user_input).

(** The two handlers of [respond]. *)
Definition recover (e : exn) : pystr :=
  if is_RuntimeError e
  then PromptController.format_error_response (exn_text e)
  else PromptController.format_error_response
         (py "Unexpected error: " ++ exn_text e).

(** [memory.add("user", ..)] followed by [memory.add("assistant", ..)]; the
    second call is not made when the first one raises. *)
Definition save_exchange (user_input response : pystr) (m : Memory.t)
  : option exn * Memory.t :=
  match Memory.add (py "user") user_input m with
  | (Some e, m1) => (Some e, m1)
  | (None, m1) => Memory.add (py "assistant") response m1
  end.

Definition respond (user_input : pystr) (save_to_memory : bool) (a : t)
  : pystr * t :=
  if blank user_input then (no_input, a)
  else
    let prompt :=
      PromptController.build_prompt (prompt_controller a) user_input
        (Some (memory a)) true in
    let a := sent prompt a in
    match generate (engine a) prompt with
    | inl e => (recover e, a)
    | inr response =>
        if save_to_memory then
          match save_exchange user_input response (memory a) with
          | (Some e, m) => (recover e, set_memory m a)
          | (None, m) => (response, set_memory m a)
          end
        else (response, a)
    end.

(** The generator run to its end: everything it yields, and the assistant
    afterwards. *)
Definition respond_stream (user_input : pystr) (save_to_memory : bool) (a : t)
  : list pystr * t :=
  if blank user_input then ([no_input], a)
  else
    let prompt :=
      PromptController.build_prompt (prompt_controller a) user_input
        (Some (memory a)) true in
    let a := sent prompt a in
    match generate_stream (engine a) prompt with
    | (chunks, Some e) =>
        (chunks ++ [PromptController.format_error_response (exn_text e)], a)
    | (chunks, None) =>
        if save_to_memory then
          match save_exchange user_input (concat chunks) (memory a) with
          | (Some e, m) =>
              (chunks ++ [PromptController.format_error_response (exn_text e)],
               set_memory m a)
          | (None, m) => (chunks, set_memory m a)
          end
        else (chunks, a)
    end.

Definition get_conversation_stats (a : t) : statistics :=
  Memory.get_statistics (memory a).

Definition set_prompt_controller (pc : PromptController.t) (a : t) : t :=
  Make (engine a) pc (memory a) (_conversation_started a) (requests a).

Definition start_conversation (a : t) : pystr * t :=
  (PromptController.build_greeting (prompt_controller a),
   Make (engine a) (prompt_controller a) (memory a) true (requests a)).

(** [set_role] raises nothing but the [ValueError] that is caught here. *)
Definition change_role (role : pystr) (a : t) : pystr * t :=
  match PromptController.set_role role (prompt_controller a) with
  | (None, pc) =>
      let (name, description) := PromptController.get_role_info pc in
      (py "Role changed to: " ++ name ++ py " - " ++ description,
       set_prompt_controller pc a)
  | (Some e, pc) =>
      (py "Error changing role: " ++ exn_text e, set_prompt_controller pc a)
  end.

Definition get_current_role (a : t) : pystr * pystr :=
  PromptController.get_role_info (prompt_controller a).

(** The message returned, or the exception that escapes [memory.clear()]. *)
Definition clear_memory (a : t) : (exn + pystr) * t :=
  match Memory.clear (memory a) with
  | (Some e, m) => (inl e, set_memory m a)
  | (None, m) =>
      (inr (py "Conversation history cleared. Starting fresh!"),
       set_memory m a)
  end.

Definition export_conversation (filename : option pystr)
    (open_error : option pystr) (a : t) : pystr * option pystr * t :=
  match Memory.export_conversation filename open_error (memory a) with
  | (inr filepath, written, m) =>
      (py "Conversation exported to: " ++ filepath, written, set_memory m a)
  | (inl e, written, m) =>
      (py "Failed to export conversation: " ++ exn_text e, written,
       set_memory m a)
  end.

End JarvisAssistant.

(** ** [config/settings.py] *)

Module Settings.

(** The fields the key handling touches. *)
Record t := Make { _api_key : option pystr }.

Definition __init__ : t := Make None.

Definition key_missing : exn :=
  Exn ValueError
      (py "GEMINI_API_KEY not found. Please set it in your .env file").

(** [env] is what [os.getenv("GEMINI_API_KEY")] gives at the time of the
    call. *)
Definition load_api_key (env : option pystr) (s : t) : (exn + pystr) * t :=
  let key := match _api_key s with None => env | Some k => Some k end in
  match key with
  | Some k => if falsy k then (inl key_missing, Make key) else (inr k, Make key)
  | None => (inl key_missing, Make key)
  end.

Definition validate (env : option pystr) (s : t) : bool * t :=
  match load_api_key env s with
  | (inr _, s') => (true, s')
  | (inl _, s') => (false, s')
  end.

(** [os.getenv("GEMINI_MODEL", self._model_name)] *)
Definition model_name (env : option pystr) : pystr :=
  match env with Some v => v | None => py "gemini-pro" end.

End Settings.

(** ** [app.py]: the mode preselected in the sidebar *)

Module App.

(** The loop of [display_sidebar] over [role_options]: the index of the first
    key that occurs in the lower-cased name, 0 when none does. *)
Fixpoint first_match (name : pystr) (options : list pystr) (idx : nat)
  : option nat :=
  match options with
  | [] => None
  | role :: rest =>
      if contains role name then Some idx else first_match name rest (S idx)
  end.

Definition current_index (a : JarvisAssistant.t) : nat :=
  let role_options := map fst PromptController.get_available_roles in
  let name := fst (JarvisAssistant.get_current_role a) in
  match first_match (ascii_lower name) role_options 0 with
  | Some idx => idx
  | None => 0
  end.

End App.

(** ** Notions used to state the properties *)

(** Empty, or whitespace throughout. *)
Definition whitespace_only (s : pystr) : Prop :=
  Forall (fun c => isspace c = true) s.

(** Some character is not whitespace. *)
Definition has_text (s : pystr) : Prop :=
  Exists (fun c => isspace c = false) s.

Definition valid_role (r : pystr) : Prop := r = py "user" \/ r = py "assistant".

(** The last [n] elements of a list, all of it when it is shorter. *)
Definition lastn {A : Type} (n : nat) (l : list A) : list A :=
  skipn (length l - n) l.

(** A sequence of [add(role, text)] calls, run in order. *)
Definition add_all (calls : list (pystr * pystr)) (m : Memory.t) : Memory.t :=
  fold_left (fun m c => snd (Memory.add (fst c) (snd c) m)) calls m.

(** The messages a sequence of valid calls appends. Each call reads the clock
    twice: for the message, then for [last_updated]. *)
Fixpoint appended (clock : nat -> datetime) (ticks : nat)
    (calls : list (pystr * pystr)) : list Message :=
  match calls with
  | [] => []
  | (r, text) :: rest =>
      Msg r text (isoformat (clock ticks)) :: appended clock (2 + ticks) rest
  end.

(** Stores obtained from an empty transcript by [add] and [clear] calls,
    whatever their outcome. *)
Inductive built : Memory.t -> Prop :=
| built_empty m : Memory.conversation m = [] -> built m
| built_add r text m : built m -> built (snd (Memory.add r text m))
| built_clear m : built m -> built (snd (Memory.clear m)).

(** The prompt as the specification composes it: the system prompt, a blank
    line, the context block followed by a blank line when there is one, the
    user line and the cue line. *)
Definition composed (system_prompt context_block user_input : pystr) : pystr :=
  system_prompt ++ newline ++ newline
  ++ (if falsy context_block then [] else context_block ++ newline ++ newline)
  ++ py "User: " ++ user_input ++ newline ++ py "Assistant:".

(** No surrogate: the text can be written to a UTF-8 file. *)
Definition encodable (s : pystr) : Prop :=
  Forall (fun c => is_surrogate c = false) s.

Definition encodable_message (m : Message) : Prop :=
  encodable (role m) /\ encodable (message m) /\ encodable (timestamp m).

(** A store with nothing on disk, a disk that can be written, and a clock
    that stands still. *)
Definition midnight : datetime := Datetime 2024 1 1 0 0 0 0.

Definition fresh (max_history : Z) (conv : list Message) : Memory.t :=
  Memory.Make max_history conv Absent None (fun _ => midnight) 0 [].

(** An engine over a provider whose stream delivers [Hel] and then fails. *)
Definition dropped_connection : exn := Exn OtherException (py "connection lost").

Definition failing_model (prompt : pystr) : generator :=
  ([py "Hel"], Some dropped_connection).

Definition failing_engine : Engine :=
  {| generate := fun _ => inl dropped_connection;
     generate_stream := GeminiEngine.generate_stream failing_model |}.

Definition assistant_with (e : Engine) (m : Memory.t) : JarvisAssistant.t :=
  JarvisAssistant.Make e (PromptController.Make general) m false [].

(** An engine whose [generate] raises, and one that answers. *)
Definition quota_exceeded : pystr :=
  py "API quota exceeded. Please try again later.".

Definition exhausted_engine : Engine :=
  {| generate := fun _ => inl (Exn RuntimeError quota_exceeded);
     generate_stream := fun _ => ([], Some (Exn RuntimeError quota_exceeded)) |}.

Definition answering_engine : Engine :=
  {| generate := fun _ => inr (py "At your service.");
     generate_stream := fun _ => ([py "At your "; py "service."], None) |}.

(** Two turns already in the store. *)
Definition greeting_exchange : list Message :=
  [Msg (py "user") (py "hello") (py "2024-01-01T00:00:00");
   Msg (py "assistant") (py "Good day.") (py "2024-01-01T00:00:01")].

(** The trimming step of [add]. *)
Definition trim (max_history : Z) (conv : list Message) : list Message :=
  if (Z.of_nat (length conv) >? max_history)%Z
  then slice_from (- max_history) conv
  else conv.

Definition roles_valid (conv : list Message) : Prop :=
  Forall (fun msg => valid_role (role msg)) conv.

(** [scan] reads [text] as [v] whatever follows, and [text] starts with a
    character that is not whitespace. *)
Definition scans (scan : Json.parser) (text : pystr) (v : pyval) : Prop :=
  (forall tail, scan (text ++ tail) = Some (v, tail))
  /\ (forall tail, Json.skip_ws (text ++ tail) = text ++ tail).

(** A transcript whose one message is a lone surrogate. *)
Definition surrogate_transcript : list Message :=
  [Msg (py "user") [55296%N] (py "2024-01-01T00:00:00")].

(** A store whose file cannot be opened for writing. *)
Definition read_only (max_history : Z) (conv : list Message) : Memory.t :=
  Memory.Make max_history conv (Text (py "{}"))
    (Some (py "[Errno 13] Permission denied: 'conversation_history.json'"))
    (fun _ => midnight) 0 [].

(** Some character is a surrogate. *)
Definition has_surrogate (s : pystr) : Prop :=
  Exists (fun c => is_surrogate c = true) s.

(** Ten turns of the same text. *)
Definition ten_turns : list Message :=
  repeat (Msg (py "user") (py "again") (py "2024-01-01T00:00:00")) 10.

(** Providers: one that fails over quota, one that answers nothing, one
    that answers at length. *)
Definition quota_model (prompt : pystr) : exn + pystr :=
  inl (Exn OtherException (py "429 Quota exceeded for this project")).

Definition silent_model (prompt : pystr) : exn + pystr := inr [].

Definition verbose_model (prompt : pystr) : exn + pystr :=
  inr (repeat 97%N 60).

(** ** Strings and lists *)

Lemma pystr_eqb_eq (a b : pystr) : pystr_eqb a b = true <-> a = b.
Proof.
  revert b; induction a as [|x a IH]; intros [|y b]; simpl; split;
    try congruence; try discriminate; auto.
  - intros H. apply andb_true_iff in H as [Hx Hab].
    apply N.eqb_eq in Hx. apply IH in Hab. congruence.
  - intros H. injection H as -> ->. apply andb_true_iff; split.
    + apply N.eqb_refl.
    + now apply IH.
Qed.

Lemma pystr_eqb_neq (a b : pystr) : pystr_eqb a b = false <-> a <> b.
Proof.
  split.
  - intros H E. apply pystr_eqb_eq in E. congruence.
  - intros H. destruct (pystr_eqb a b) eqn:E; trivial.
    apply pystr_eqb_eq in E. contradiction.
Qed.

Lemma lstrip_whitespace (s : pystr) : whitespace_only s -> lstrip s = [].
Proof.
  induction 1 as [|c s Hc _ IH]; simpl; trivial.
  now rewrite Hc.
Qed.

Lemma lstrip_keeps_text (s : pystr) : has_text s -> lstrip s <> [].
Proof.
  induction s as [|c s IH]; intros H.
  - inversion H.
  - simpl. destruct (isspace c) eqn:Hc.
    + apply IH. inversion H; subst; trivial. congruence.
    + discriminate.
Qed.

Lemma has_text_rev (s : pystr) : has_text s -> has_text (rev s).
Proof.
  unfold has_text. rewrite !Exists_exists.
  intros (c & Hin & Hc). exists c. split; trivial. now apply in_rev in Hin.
Qed.

Lemma lstrip_has_text (s : pystr) : has_text s -> has_text (lstrip s).
Proof.
  induction s as [|c s IH]; intros H; simpl; trivial.
  destruct (isspace c) eqn:Hc; trivial.
  apply IH. inversion H; subst; trivial. congruence.
Qed.

Lemma blank_whitespace (s : pystr) :
  whitespace_only s -> JarvisAssistant.blank s = true.
Proof.
  intros H. unfold JarvisAssistant.blank, strip.
  rewrite (lstrip_whitespace H). simpl. apply orb_true_r.
Qed.

Lemma falsy_false (s : pystr) : s <> [] -> falsy s = false.
Proof. destruct s; [contradiction | reflexivity]. Qed.

Lemma blank_has_text (s : pystr) :
  has_text s -> JarvisAssistant.blank s = false.
Proof.
  intros H. unfold JarvisAssistant.blank, strip.
  apply orb_false_iff; split; apply falsy_false.
  - intros ->. inversion H.
  - intros E. apply (f_equal (@rev N)) in E. rewrite rev_involutive in E.
    revert E. apply lstrip_keeps_text, has_text_rev, lstrip_has_text, H.
Qed.

Lemma whitespace_or_text (s : pystr) : whitespace_only s \/ has_text s.
Proof.
  induction s as [|c s [IH|IH]].
  - left. constructor.
  - destruct (isspace c) eqn:Hc.
    + left. now constructor.
    + right. now constructor.
  - right. now constructor 2.
Qed.

(** ** The transcript store: roles *)

Lemma valid_role_check (r : pystr) :
  valid_role r ->
  negb (pystr_eqb r (py "user") || pystr_eqb r (py "assistant")) = false.
Proof.
  intros [-> | ->]; reflexivity.
Qed.

Lemma invalid_role_check (r : pystr) :
  ~ valid_role r ->
  negb (pystr_eqb r (py "user") || pystr_eqb r (py "assistant")) = true.
Proof.
  intros H. apply negb_true_iff, orb_false_iff.
  split; apply pystr_eqb_neq; intros E; apply H; [left | right]; exact E.
Qed.

(** C6. [add] with a role other than [user] and [assistant] raises the
    [ValueError] that stands for the invalid-role failure and returns the
    store as it was: the message list, the file and the console are those
    before the call, so nothing is appended and nothing is persisted. *)
Theorem add_invalid_role (r text : pystr) (m : Memory.t) :
  ~ valid_role r ->
  Memory.add r text m
  = (Some (Exn ValueError (py "Role must be either 'user' or 'assistant'")), m).
Proof.
  intros H. unfold Memory.add. now rewrite (invalid_role_check H).
Qed.

Lemma add_invalid_role_witness :
  ~ valid_role (py "system")
  /\ Memory.add (py "system") (py "be brief") (fresh 50 greeting_exchange)
     = (Some (Exn ValueError (py "Role must be either 'user' or 'assistant'")),
        fresh 50 greeting_exchange).
Proof.
  assert (H : ~ valid_role (py "system")) by (intros [E | E]; discriminate E).
  split; [exact H | exact (add_invalid_role (py "be brief") _ H)].
Defined.

(** ** The turn protocol *)

(** C7. For an input that is empty or whitespace throughout, [respond]
    returns the fixed no-input message and leaves the assistant as it was:
    no prompt has been handed to the engine, the store is the same object in
    the same state, and [total_messages] is what it was. *)
Theorem respond_blank_input (user_input : pystr) (save : bool)
    (a : JarvisAssistant.t) :
  whitespace_only user_input ->
  let r := JarvisAssistant.respond user_input save a in
  fst r = JarvisAssistant.no_input
  /\ JarvisAssistant.requests (snd r) = JarvisAssistant.requests a
  /\ JarvisAssistant.memory (snd r) = JarvisAssistant.memory a
  /\ total_messages (JarvisAssistant.get_conversation_stats (snd r))
     = total_messages (JarvisAssistant.get_conversation_stats a).
Proof.
  intros H. unfold JarvisAssistant.respond.
  rewrite (blank_whitespace H). simpl. auto.
Qed.

Lemma respond_blank_input_witness :
  whitespace_only [32; 9; 160]%N
  /\ fst (JarvisAssistant.respond [32; 9; 160]%N true
            (assistant_with answering_engine (fresh 50 greeting_exchange)))
     = JarvisAssistant.no_input.
Proof.
  assert (H : whitespace_only [32; 9; 160]%N)
    by (repeat constructor).
  split; [exact H|].
  exact (proj1 (respond_blank_input true
                  (assistant_with answering_engine (fresh 50 greeting_exchange))
                  H)).
Defined.

(** C4. When [generate] raises a [RuntimeError] on the prompt built for an
    input that has text, [respond] returns the apology with the text of the
    failure in it, and the store is unchanged: neither turn is appended. *)
Theorem respond_generation_failure (user_input detail : pystr) (save : bool)
    (a : JarvisAssistant.t) :
  has_text user_input ->
  generate (JarvisAssistant.engine a)
    (PromptController.build_prompt (JarvisAssistant.prompt_controller a)
       user_input (Some (JarvisAssistant.memory a)) true)
  = inl (Exn RuntimeError detail) ->
  let r := JarvisAssistant.respond user_input save a in
  fst r = py "I apologize, but I encountered an issue: " ++ detail
          ++ py ". Please try again or rephrase your request."
  /\ JarvisAssistant.memory (snd r) = JarvisAssistant.memory a.
Proof.
  intros Ht Hg. unfold JarvisAssistant.respond.
  rewrite (blank_has_text Ht). simpl JarvisAssistant.engine.
  simpl JarvisAssistant.prompt_controller. simpl JarvisAssistant.memory.
  rewrite Hg. split; reflexivity.
Qed.

Lemma respond_generation_failure_witness :
  has_text (py "hi")
  /\ JarvisAssistant.memory
       (snd (JarvisAssistant.respond (py "hi") true
               (assistant_with exhausted_engine (fresh 50 greeting_exchange))))
     = fresh 50 greeting_exchange.
Proof.
  assert (H : has_text (py "hi")) by (constructor; reflexivity).
  split; [exact H|].
  exact (proj2 (respond_generation_failure (detail := quota_exceeded) true
                  (assistant_with exhausted_engine (fresh 50 greeting_exchange))
                  H eq_refl)).
Defined.

(** C9. With [save_to_memory=False] and an engine that answers, [respond]
    returns the generated text and the store is unchanged: neither turn is
    appended. *)
Theorem respond_without_saving (user_input response : pystr)
    (a : JarvisAssistant.t) :
  has_text user_input ->
  generate (JarvisAssistant.engine a)
    (PromptController.build_prompt (JarvisAssistant.prompt_controller a)
       user_input (Some (JarvisAssistant.memory a)) true)
  = inr response ->
  let r := JarvisAssistant.respond user_input false a in
  fst r = response
  /\ JarvisAssistant.memory (snd r) = JarvisAssistant.memory a.
Proof.
  intros Ht Hg. unfold JarvisAssistant.respond.
  rewrite (blank_has_text Ht). simpl JarvisAssistant.engine.
  simpl JarvisAssistant.prompt_controller. simpl JarvisAssistant.memory.
  rewrite Hg. split; reflexivity.
Qed.

Lemma respond_without_saving_witness :
  has_text (py "hi")
  /\ fst (JarvisAssistant.respond (py "hi") false
            (assistant_with answering_engine (fresh 50 greeting_exchange)))
     = py "At your service."
  /\ JarvisAssistant.memory
       (snd (JarvisAssistant.respond (py "hi") false
               (assistant_with answering_engine (fresh 50 greeting_exchange))))
     = fresh 50 greeting_exchange.
Proof.
  assert (H : has_text (py "hi")) by (constructor; reflexivity).
  split; [exact H|].
  exact (respond_without_saving
           (assistant_with answering_engine (fresh 50 greeting_exchange))
           H eq_refl).
Defined.

(** The engine of the repository never lets its stream raise. *)
Lemma gemini_stream_never_raises (model : pystr -> generator) (prompt : pystr) :
  snd (GeminiEngine.generate_stream model prompt) = None.
Proof.
  unfold GeminiEngine.generate_stream. now destruct (model prompt).
Qed.

(** A stream that does raise leaves the store alone. *)
Lemma respond_stream_raise_keeps_memory (user_input : pystr) (save : bool)
    (a : JarvisAssistant.t) (chunks : list pystr) (e : exn) :
  generate_stream (JarvisAssistant.engine a)
    (PromptController.build_prompt (JarvisAssistant.prompt_controller a)
       user_input (Some (JarvisAssistant.memory a)) true)
  = (chunks, Some e) ->
  JarvisAssistant.memory (snd (JarvisAssistant.respond_stream user_input save a))
  = JarvisAssistant.memory a.
Proof.
  intros Hg. unfold JarvisAssistant.respond_stream.
  destruct (JarvisAssistant.blank user_input); trivial.
  simpl JarvisAssistant.engine. simpl JarvisAssistant.prompt_controller.
  simpl JarvisAssistant.memory. now rewrite Hg.
Qed.

(** Under the repository's engine the save is reached whatever the provider
    did: the assistant turn is the concatenation of everything yielded, an
    error text included. *)
Lemma respond_stream_gemini_saves (model : pystr -> generator)
    (gen : pystr -> exn + pystr) (user_input : pystr) (a : JarvisAssistant.t) :
  has_text user_input ->
  JarvisAssistant.engine a
  = {| generate := gen;
       generate_stream := GeminiEngine.generate_stream model |} ->
  let prompt :=
    PromptController.build_prompt (JarvisAssistant.prompt_controller a)
      user_input (Some (JarvisAssistant.memory a)) true in
  let yielded := fst (GeminiEngine.generate_stream model prompt) in
  JarvisAssistant.memory
    (snd (JarvisAssistant.respond_stream user_input true a))
  = snd (JarvisAssistant.save_exchange user_input (concat yielded)
           (JarvisAssistant.memory a)).
Proof.
  intros Ht He. cbv zeta. unfold JarvisAssistant.respond_stream.
  rewrite (blank_has_text Ht). simpl JarvisAssistant.engine.
  simpl JarvisAssistant.prompt_controller. simpl JarvisAssistant.memory.
  rewrite He. simpl generate_stream.
  unfold GeminiEngine.generate_stream.
  destruct (model _) as [texts failure]. simpl fst.
  destruct (JarvisAssistant.save_exchange _ _ _) as [[e|] m]; reflexivity.
Qed.

(** C1. A provider stream that delivers [Hel] and then fails, under the
    repository's engine: the failure is yielded as one more fragment, and
    the user turn and an assistant turn made of the partial text and the
    error fragment are both appended to the store. *)
Theorem stream_failure_is_persisted :
  let a := assistant_with failing_engine (fresh 50 []) in
  let r := JarvisAssistant.respond_stream (py "hi") true a in
  fst r = [py "Hel"; py "Error in streaming: connection lost"]
  /\ Memory.conversation (JarvisAssistant.memory a) = []
  /\ Memory.conversation (JarvisAssistant.memory (snd r))
     = [Msg (py "user") (py "hi") (py "2024-01-01T00:00:00");
        Msg (py "assistant") (py "HelError in streaming: connection lost")
            (py "2024-01-01T00:00:00")].
Proof.
  vm_compute. repeat split.
Qed.

(** ** The transcript store: loading *)

Lemma load_absent : Memory._load_from_file Absent = Loaded (PyList []) [].
Proof. reflexivity. Qed.

Lemma load_unreadable (e : pystr) :
  Memory._load_from_file (Unreadable e) = Loaded (PyList []) [could_not_load_io e].
Proof. reflexivity. Qed.

Lemma load_malformed (s : pystr) :
  Json.loads s = None ->
  Memory._load_from_file (Text s) = Loaded (PyList []) [could_not_load_json].
Proof.
  intros H. unfold Memory._load_from_file. now rewrite H.
Qed.

(** C2. A file that holds the JSON text of an empty list: decoding succeeds,
    the value has no [get], and the [AttributeError] escapes the
    constructor. *)
Theorem construction_fails_on_json_list :
  Json.loads (py "[]") = Some (PyList [])
  /\ Memory.__init__ (Text (py "[]")) 50
     = LoadRaises (Exn AttributeError
                     (py "'list' object has no attribute 'get'")).
Proof.
  split; reflexivity.
Qed.

(** ** The transcript store: appending and trimming *)

Lemma slice_from_negative {A : Type} (k : Z) (l : list A) :
  (0 < k)%Z -> slice_from (- k) l = lastn (Z.to_nat k) l.
Proof.
  intros Hk. unfold slice_from, lastn.
  destruct (Z.ltb_spec (- k) 0); [|lia].
  f_equal. lia.
Qed.

Lemma lastn_all {A : Type} (n : nat) (l : list A) :
  length l <= n -> lastn n l = l.
Proof.
  intros H. unfold lastn. now replace (length l - n) with 0 by lia.
Qed.

Lemma lastn_length {A : Type} (n : nat) (l : list A) :
  length (lastn n l) = Nat.min n (length l).
Proof.
  unfold lastn. rewrite length_skipn. lia.
Qed.

Lemma lastn_app {A : Type} (n : nat) (l l' : list A) :
  lastn n (lastn n l ++ l') = lastn n (l ++ l').
Proof.
  unfold lastn. rewrite !length_app, length_skipn, !skipn_app, length_skipn.
  rewrite skipn_skipn. f_equal; f_equal; lia.
Qed.

Lemma trim_positive (k : Z) (conv : list Message) :
  (0 < k)%Z -> trim k conv = lastn (Z.to_nat k) conv.
Proof.
  intros Hk. unfold trim. destruct (Z.gtb_spec (Z.of_nat (length conv)) k).
  - now apply slice_from_negative.
  - symmetry. apply lastn_all. lia.
Qed.

Lemma save_frame (m : Memory.t) :
  let m' := snd (Memory._save_to_file m) in
  Memory.conversation m' = Memory.conversation m
  /\ Memory.max_history m' = Memory.max_history m
  /\ Memory.clock m' = Memory.clock m
  /\ Memory.ticks m' = S (Memory.ticks m).
Proof.
  unfold Memory._save_to_file. simpl.
  destruct (Memory.write_error m); simpl; auto.
  destruct (write_chunks _ _); simpl; auto.
Qed.

Lemma add_valid_role (r text : pystr) (m : Memory.t) :
  valid_role r ->
  let m' := snd (Memory.add r text m) in
  Memory.conversation m'
  = trim (Memory.max_history m)
      (Memory.conversation m
       ++ [Msg r text (isoformat (Memory.clock m (Memory.ticks m)))])
  /\ Memory.max_history m' = Memory.max_history m
  /\ Memory.clock m' = Memory.clock m
  /\ Memory.ticks m' = 2 + Memory.ticks m.
Proof.
  intros Hr. unfold Memory.add. rewrite (valid_role_check Hr).
  cbv beta iota zeta delta [Memory.now].
  match goal with |- context [Memory._save_to_file ?x] =>
    destruct (save_frame x) as (Hc & Hm & Hk & Ht) end.
  rewrite Hc, Hm, Hk, Ht. simpl. unfold trim. auto.
Qed.

(** The intended behaviour, for a positive bound: after any sequence of valid
    calls the store holds the most recent [max_history] messages of the
    initial transcript followed by the appended ones, in order. *)
Lemma add_all_keeps_most_recent (calls : list (pystr * pystr)) (m : Memory.t) :
  (0 < Memory.max_history m)%Z ->
  (Z.of_nat (length (Memory.conversation m)) <= Memory.max_history m)%Z ->
  Forall (fun c => valid_role (fst c)) calls ->
  let after := Memory.conversation (add_all calls m) in
  let every := Memory.conversation m
               ++ appended (Memory.clock m) (Memory.ticks m) calls in
  after = lastn (Z.to_nat (Memory.max_history m)) every
  /\ length after
     = Nat.min (Z.to_nat (Memory.max_history m)) (length every).
Proof.
  intros Hpos Hlen Hvalid. cbv zeta.
  assert (E : Memory.conversation (add_all calls m)
              = lastn (Z.to_nat (Memory.max_history m))
                  (Memory.conversation m
                   ++ appended (Memory.clock m) (Memory.ticks m) calls)).
  { revert m Hpos Hlen.
    induction Hvalid as [|[r text] calls Hr _ IH]; intros m Hpos Hlen.
    - simpl. rewrite app_nil_r. symmetry. apply lastn_all. lia.
    - destruct (add_valid_role text m Hr) as (Hc & Hm & Hk & Ht).
      simpl fst in *. rewrite (trim_positive _ Hpos) in Hc.
      change (add_all ((r, text) :: calls) m)
        with (add_all calls (snd (Memory.add r text m))).
      rewrite IH; rewrite ?Hm, ?Hk, ?Ht, ?Hc; trivial.
      + rewrite lastn_app, <- app_assoc. reflexivity.
      + rewrite lastn_length. lia. }
  split; [exact E|]. rewrite E. apply lastn_length.
Qed.

(** C3. With [max_history = 0] the trimming slice is [conversation[-0:]],
    which is the whole list: starting from the empty transcript, two valid
    calls leave two messages in a store whose bound is zero. *)
Theorem add_never_trims_when_max_history_is_zero :
  let m := fresh 0 [] in
  let m1 := snd (Memory.add (py "user") (py "hi") m) in
  let m2 := snd (Memory.add (py "assistant") (py "hello") m1) in
  (Z.of_nat (length (Memory.conversation m)) <= Memory.max_history m)%Z
  /\ Memory.conversation m1
     = [Msg (py "user") (py "hi") (py "2024-01-01T00:00:00")]
  /\ Memory.conversation m2
     = [Msg (py "user") (py "hi") (py "2024-01-01T00:00:00");
        Msg (py "assistant") (py "hello") (py "2024-01-01T00:00:00")]
  /\ (Z.of_nat (length (Memory.conversation m2)) > Memory.max_history m2)%Z.
Proof.
  vm_compute. repeat split; discriminate.
Qed.

(** ** The transcript store: statistics *)

Lemma roles_valid_skipn (n : nat) (conv : list Message) :
  roles_valid conv -> roles_valid (skipn n conv).
Proof.
  unfold roles_valid. rewrite !Forall_forall.
  intros H x Hx. apply H. rewrite <- (firstn_skipn n conv).
  apply in_or_app. now right.
Qed.

Lemma roles_valid_trim (k : Z) (conv : list Message) :
  roles_valid conv -> roles_valid (trim k conv).
Proof.
  intros H. unfold trim, slice_from.
  destruct (_ >? _)%Z; trivial. now apply roles_valid_skipn.
Qed.

Lemma built_roles_valid (m : Memory.t) :
  built m -> roles_valid (Memory.conversation m).
Proof.
  induction 1 as [m E | r text m _ IH | m _ IH].
  - rewrite E. constructor.
  - destruct (pystr_eqb r (py "user") || pystr_eqb r (py "assistant")) eqn:Hr.
    + assert (Hv : valid_role r).
      { apply orb_true_iff in Hr as [Hr | Hr]; apply pystr_eqb_eq in Hr;
          [left | right]; exact Hr. }
      destruct (add_valid_role text m Hv) as (Hc & _). rewrite Hc.
      apply roles_valid_trim. apply Forall_app. split; trivial.
      constructor; [exact Hv | constructor].
    + unfold Memory.add. rewrite Hr. exact IH.
  - unfold Memory.clear.
    match goal with |- context [Memory._save_to_file ?x] =>
      destruct (save_frame x) as (Hc & _) end.
    rewrite Hc. constructor.
Qed.

Lemma count_roles (conv : list Message) :
  roles_valid conv ->
  length conv
  = count (fun msg => pystr_eqb (role msg) (py "user")) conv
    + count (fun msg => pystr_eqb (role msg) (py "assistant")) conv.
Proof.
  unfold count. induction 1 as [|msg conv [Hr | Hr] _ IH]; simpl; trivial;
    rewrite Hr; simpl; lia.
Qed.

(** C10. In a store built from the empty transcript by [add] and [clear]
    calls, [total_messages] is the sum of [user_messages] and
    [assistant_messages]. *)
Theorem statistics_add_up (m : Memory.t) :
  built m ->
  let s := Memory.get_statistics m in
  total_messages s = user_messages s + assistant_messages s.
Proof.
  intros H. simpl. apply count_roles, built_roles_valid, H.
Qed.

Lemma statistics_add_up_witness :
  built (snd (Memory.clear
           (snd (Memory.add (py "user") (py "hi") (fresh 2 [])))))
  /\ built (add_all [(py "user", py "a"); (py "assistant", py "b");
                     (py "system", py "c"); (py "user", py "d")]
              (fresh 2 []))
  /\ Memory.get_statistics
       (add_all [(py "user", py "a"); (py "assistant", py "b");
                 (py "system", py "c"); (py "user", py "d")]
          (fresh 2 []))
     = Stats 2 1 1.
Proof.
  assert (H0 : built (fresh 2 [])) by (constructor; reflexivity).
  assert (H1 : built (add_all [(py "user", py "a"); (py "assistant", py "b");
                               (py "system", py "c"); (py "user", py "d")]
                        (fresh 2 [])))
    by (repeat apply built_add; exact H0).
  split; [apply built_clear, built_add, H0|].
  split; [exact H1|].
  pose proof (statistics_add_up H1) as E.
  reflexivity.
Defined.

(** ** Prompt assembly *)

Lemma build_prompt_composed (r : role_key) (user_input : pystr) (m : Memory.t) :
  PromptController.build_prompt (PromptController.Make r) user_input (Some m)
    true
  = composed (PromptController.system_prompt (PromptController.ROLES r))
      (Memory.get_context_for_prompt 10 m) user_input.
Proof.
  unfold PromptController.build_prompt, composed,
    PromptController.get_system_prompt.
  simpl PromptController.current_role.
  destruct (falsy (Memory.get_context_for_prompt 10 m)); simpl;
    repeat rewrite <- app_assoc; reflexivity.
Qed.

(** C5, as stated, at depth 1 with two turns in the store: the prompt the
    code builds carries both turns, the composition at depth 1 only the
    last. *)
Theorem build_prompt_depth_is_fixed :
  ~ (forall (r : role_key) (user_input : pystr) (m : Memory.t) (depth : Z),
        PromptController.build_prompt (PromptController.Make r) user_input
          (Some m) true
        = composed (PromptController.system_prompt (PromptController.ROLES r))
            (Memory.get_context_for_prompt depth m) user_input).
Proof.
  intros H.
  specialize (H general (py "and you?") (fresh 50 greeting_exchange) 1%Z).
  apply (f_equal (@length N)) in H. vm_compute in H. discriminate H.
Qed.

(** C5, amended. For every role of the catalog, every input and every state
    of the store, the prompt is the system prompt, a blank line, the context
    block of depth 10 followed by a blank line when that block is not empty,
    the line [User: ] followed by the input, and the line [Assistant:]. It
    ends with the line [Assistant:] and contains [User: ] followed by the
    input. *)
Theorem build_prompt_layout (r : role_key) (user_input : pystr) (m : Memory.t) :
  let prompt :=
    PromptController.build_prompt (PromptController.Make r) user_input (Some m)
      true in
  prompt
  = composed (PromptController.system_prompt (PromptController.ROLES r))
      (Memory.get_context_for_prompt 10 m) user_input
  /\ (exists before, prompt = before ++ newline ++ py "Assistant:")
  /\ (exists before after,
        prompt = before ++ newline ++ py "User: " ++ user_input ++ newline
                 ++ after).
Proof.
  cbv zeta. rewrite build_prompt_composed. split; [reflexivity|].
  unfold composed.
  set (sys := PromptController.system_prompt (PromptController.ROLES r)).
  set (context := Memory.get_context_for_prompt 10 m).
  split.
  - exists (sys ++ newline ++ newline
            ++ (if falsy context then [] else context ++ newline ++ newline)
            ++ py "User: " ++ user_input).
    repeat rewrite <- app_assoc. reflexivity.
  - exists (sys ++ newline
            ++ (if falsy context then []
                else newline ++ context ++ newline)),
           (py "Assistant:").
    destruct (falsy context); repeat rewrite <- app_assoc; reflexivity.
Qed.

(** ** The [json] codec: decoding what was encoded *)

Lemma below_32 (P : N -> Prop) :
  (forall n, (n < 32)%nat -> P (N.of_nat n)) -> forall c, (c < 32)%N -> P c.
Proof.
  intros H c Hc. rewrite <- (N2Nat.id c). apply H. lia.
Qed.

Lemma scan_control (c : N) (rest acc : pystr) :
  (c < 32)%N ->
  Json.scanstring (Json.escape_char c ++ rest) acc
  = Json.scanstring rest (c :: acc).
Proof.
  intros Hc. revert c Hc rest acc. apply (below_32 (fun c => forall rest acc, _)).
  intros n Hn rest acc.
  do 32 (destruct n as [|n]; [reflexivity|]). 
  exfalso; lia.
Qed.

Lemma scan_plain (c : N) (rest acc : pystr) :
  c <> 34%N -> c <> 92%N -> (32 <= c)%N ->
  Json.scanstring (c :: rest) acc = Json.scanstring rest (c :: acc).
Proof.
  intros H34 H92 H32.
  cbn [Json.scanstring]. unfold quote, backslash.
  apply N.eqb_neq in H34, H92. apply N.ltb_ge in H32.
  rewrite H34, H92, H32. reflexivity.
Qed.

Lemma scan_escape_char (c : N) (rest acc : pystr) :
  Json.scanstring (Json.escape_char c ++ rest) acc
  = Json.scanstring rest (c :: acc).
Proof.
  destruct (N.lt_ge_cases c 32) as [Hc | Hc].
  - now apply scan_control.
  - unfold Json.escape_char.
    destruct (N.eqb_spec c 34) as [-> | H34]; [reflexivity|].
    destruct (N.eqb_spec c 92) as [-> | H92]; [reflexivity|].
    destruct (N.eqb_spec c 10); [lia|].
    destruct (N.eqb_spec c 13); [lia|].
    destruct (N.eqb_spec c 9); [lia|].
    destruct (N.eqb_spec c 12); [lia|].
    destruct (N.eqb_spec c 8); [lia|].
    destruct (N.ltb_spec c 32); [lia|].
    now apply scan_plain.
Qed.

Lemma scanstring_encoded (s rest acc : pystr) :
  Json.scanstring (flat_map Json.escape_char s ++ quote :: rest) acc
  = Some (rev acc ++ s, rest).
Proof.
  revert acc. induction s as [|c s IH]; intros acc.
  - cbn [flat_map app Json.scanstring]. rewrite N.eqb_refl.
    now rewrite app_nil_r.
  - cbn [flat_map]. rewrite <- app_assoc, scan_escape_char, IH.
    cbn [rev]. now rewrite <- app_assoc.
Qed.

Lemma scan_string (d : nat) (s rest : pystr) :
  Json.scan_once (S d) (Json.encode_basestring s ++ rest)
  = Some (PyStr s, rest).
Proof.
  unfold Json.encode_basestring. cbn [app Json.scan_once].
  rewrite N.eqb_refl, <- app_assoc. cbn [app].
  now rewrite scanstring_encoded.
Qed.

Lemma skip_ws_spaces (n : nat) (s : pystr) :
  Json.skip_ws (repeat 32%N n ++ s) = Json.skip_ws s.
Proof.
  induction n as [|n IH]; trivial.
Qed.

Lemma skip_ws_indent (k : nat) (s : pystr) :
  Json.skip_ws (Json.newline_indent k ++ s) = Json.skip_ws s.
Proof.
  unfold Json.newline_indent. cbn [app Json.skip_ws].
  change (Json.is_ws 10) with true. cbv iota. apply skip_ws_spaces.
Qed.

Lemma encoded_head (s tail : pystr) :
  Json.encode_basestring s ++ tail
  = quote :: flat_map Json.escape_char s ++ quote :: tail.
Proof.
  unfold Json.encode_basestring. cbn [app]. now rewrite <- app_assoc.
Qed.

Lemma scans_string (d : nat) (s : pystr) :
  scans (Json.scan_once (S d)) (Json.encode_basestring s) (PyStr s).
Proof.
  split; intros tail.
  - apply scan_string.
  - now rewrite encoded_head.
Qed.

Ltac decide_tests :=
  repeat match goal with
    | |- context [Json.is_ws ?c] =>
        let b := eval vm_compute in (Json.is_ws c) in
        match b with true => idtac | false => idtac end;
        change (Json.is_ws c) with b
    | |- context [(?x =? ?y)%N] =>
        let b := eval vm_compute in (x =? y)%N in
        match b with true => idtac | false => idtac end;
        change (x =? y)%N with b
    end;
  cbv iota.

Ltac scan_on := repeat (progress (cbn [Json.skip_ws app rev]; decide_tests)).

Section Items.

Variable scan : Json.parser.
Variables (key text : pystr) (v : pyval).
Hypothesis Hv : scans scan text v.

Lemma object_item_more (n k : nat) (key' tail : pystr)
    (acc : list (pystr * pyval)) :
  Json.object_items scan (S n)
    (flat_map Json.escape_char key
     ++ quote :: py ": " ++ text ++ py "," ++ Json.newline_indent k
     ++ Json.encode_basestring key' ++ tail) acc
  = Json.object_items scan n
      (flat_map Json.escape_char key' ++ quote :: tail) (dict_set key v acc).
Proof.
  destruct Hv as [Hscan Hskip].
  cbn [Json.object_items]. rewrite scanstring_encoded.
  change (py ": " ++ ?x) with (58%N :: 32%N :: x). scan_on.
  rewrite Hskip, Hscan.
  change (py "," ++ ?x) with (44%N :: x). scan_on.
  rewrite skip_ws_indent, encoded_head. unfold quote. scan_on.
  reflexivity.
Qed.

Lemma object_item_last (n k : nat) (tail : pystr)
    (acc : list (pystr * pyval)) :
  Json.object_items scan (S n)
    (flat_map Json.escape_char key
     ++ quote :: py ": " ++ text ++ Json.newline_indent k ++ py "}" ++ tail)
    acc
  = Some (dict_set key v acc, tail).
Proof.
  destruct Hv as [Hscan Hskip].
  cbn [Json.object_items]. rewrite scanstring_encoded.
  change (py ": " ++ ?x) with (58%N :: 32%N :: x). scan_on.
  rewrite Hskip, Hscan, skip_ws_indent.
  change (py "}" ++ ?x) with (125%N :: x). scan_on.
  reflexivity.
Qed.

End Items.

Section Elements.

Variable scan : Json.parser.
Variables (text : pystr) (v : pyval).
Hypothesis Hv : scans scan text v.

Lemma array_item_more (n k : nat) (tail : pystr) (acc : list pyval) :
  Json.array_items scan (S n)
    (text ++ py "," ++ Json.newline_indent k ++ tail) acc
  = Json.array_items scan n (Json.skip_ws tail) (v :: acc).
Proof.
  destruct Hv as [Hscan _]. cbn [Json.array_items]. rewrite Hscan.
  change (py "," ++ ?x) with (44%N :: x). scan_on.
  now rewrite skip_ws_indent.
Qed.

Lemma array_item_last (n k : nat) (tail : pystr) (acc : list pyval) :
  Json.array_items scan (S n)
    (text ++ Json.newline_indent k ++ py "]" ++ tail) acc
  = Some (rev (v :: acc), tail).
Proof.
  destruct Hv as [Hscan _]. cbn [Json.array_items].
  rewrite Hscan, skip_ws_indent.
  change (py "]" ++ ?x) with (93%N :: x). scan_on. reflexivity.
Qed.

End Elements.

Lemma scan_once_object (d : nat) (r : pystr) :
  Json.scan_once (S d) (123%N :: r) = Json.JSONObject (Json.scan_once d) r.
Proof. reflexivity. Qed.

Lemma scan_once_array (d : nat) (r : pystr) :
  Json.scan_once (S d) (91%N :: r) = Json.JSONArray (Json.scan_once d) r.
Proof. reflexivity. Qed.

(** The text of one message. *)
Lemma message_text (m : Message) :
  concat (Json.iterencode 2 (msg_val m))
  = py "{" ++ Json.newline_indent 3
    ++ Json.encode_basestring (py "role") ++ py ": "
    ++ Json.encode_basestring (role m) ++ (py "," ++ Json.newline_indent 3)
    ++ Json.encode_basestring (py "message") ++ py ": "
    ++ Json.encode_basestring (message m) ++ (py "," ++ Json.newline_indent 3)
    ++ Json.encode_basestring (py "timestamp") ++ py ": "
    ++ Json.encode_basestring (timestamp m)
    ++ Json.newline_indent 2 ++ py "}" ++ [].
Proof. reflexivity. Qed.

Lemma scans_message (d : nat) (m : Message) :
  scans (Json.scan_once (S (S d))) (concat (Json.iterencode 2 (msg_val m)))
    (msg_val m).
Proof.
  split; intros tail; rewrite message_text.
  - repeat rewrite <- app_assoc.
    change (py "{" ++ ?x) with (123%N :: x).
    rewrite scan_once_object.
    unfold Json.JSONObject. rewrite skip_ws_indent, encoded_head.
    unfold quote at 1. scan_on. unfold quote at 1. decide_tests.
    match goal with |- context [Json.object_items _ (length ?s)] =>
      assert (Hn : 3 <= length s)
        by (rewrite length_app; cbn [Json.newline_indent length repeat Nat.mul Nat.add]; lia);
      destruct (length s) as [|[|[|n]]]; try lia; clear Hn
    end.
    rewrite (@object_item_more _ _ _ _ (scans_string d (role m))).
    rewrite (@object_item_more _ _ _ _ (scans_string d (message m))).
    cbn [app].
    rewrite (@object_item_last _ _ _ _ (scans_string d (timestamp m))).
    reflexivity.
  - reflexivity.
Qed.

(** The chunks of the elements after the first one. *)
Lemma later_items_text (m : Message) (ms : list Message) :
  concat (Json.list_items (Json.iterencode 2) (Json.newline_indent 2) false
            (map msg_val (m :: ms)))
  = py "," ++ Json.newline_indent 2
    ++ concat (Json.iterencode 2 (msg_val m))
    ++ concat (Json.list_items (Json.iterencode 2) (Json.newline_indent 2)
                 false (map msg_val ms)).
Proof.
  cbn [map Json.list_items]. change (Json.atom (msg_val m)) with (@None pystr).
  cbv iota. cbn [app concat]. now rewrite concat_app, <- app_assoc.
Qed.

Lemma later_items_length (ms : list Message) :
  length ms
  <= length (concat (Json.list_items (Json.iterencode 2)
                       (Json.newline_indent 2) false (map msg_val ms))).
Proof.
  induction ms as [|m ms IH]; [apply Nat.le_0_l|].
  rewrite later_items_text. change (py "," ++ ?x) with (44%N :: x).
  cbn [length]. rewrite !length_app. lia.
Qed.

Lemma scan_elements (d : nat) (ms : list Message) :
  forall (m : Message) (n : nat) (acc : list pyval) (tail : pystr),
    length ms < n ->
    Json.array_items (Json.scan_once (S (S d))) n
      (concat (Json.iterencode 2 (msg_val m))
       ++ concat (Json.list_items (Json.iterencode 2) (Json.newline_indent 2)
                    false (map msg_val ms))
       ++ Json.newline_indent 1 ++ py "]" ++ tail) acc
    = Some (rev acc ++ map msg_val (m :: ms), tail).
Proof.
  induction ms as [|m' ms IH]; intros m n acc tail Hn;
    (destruct n as [|n]; [inversion Hn|]).
  - cbn [map Json.list_items concat app].
    now rewrite (@array_item_last _ _ _ (scans_message d m)).
  - rewrite later_items_text. repeat rewrite <- app_assoc.
    rewrite (@array_item_more _ _ _ (scans_message d m)).
    rewrite (proj2 (scans_message d m')).
    rewrite IH by (cbn [length] in Hn; lia).
    cbn [rev map]. now rewrite <- app_assoc.
Qed.

(** The text of the list of messages. *)
Lemma messages_text (m : Message) (ms : list Message) :
  concat (Json.iterencode 1 (PyList (map msg_val (m :: ms))))
  = py "[" ++ Json.newline_indent 2
    ++ concat (Json.iterencode 2 (msg_val m))
    ++ concat (Json.list_items (Json.iterencode 2) (Json.newline_indent 2)
                 false (map msg_val ms))
    ++ Json.newline_indent 1 ++ py "]" ++ [].
Proof.
  cbn [map Json.iterencode Json.iterencode_list Json.list_items].
  change (Json.atom (msg_val m)) with (@None pystr). cbv iota.
  cbn [app concat]. rewrite !concat_app. cbn [concat].
  now repeat rewrite <- app_assoc.
Qed.

Lemma JSONArray_of_objects (scan : Json.parser) (s text : pystr) :
  Json.skip_ws s = text -> hd 0%N text = 123%N ->
  Json.JSONArray scan s
  = match Json.array_items scan (length s) text [] with
    | Some (l, r') => Some (PyList l, r')
    | None => None
    end.
Proof.
  intros Hs Hd. unfold Json.JSONArray. rewrite Hs.
  destruct text as [|c r]; [discriminate Hd|].
  cbn [hd] in Hd. subst c. reflexivity.
Qed.

Lemma scans_messages (d : nat) (conv : list Message) :
  scans (Json.scan_once (S (S (S d))))
    (concat (Json.iterencode 1 (PyList (map msg_val conv))))
    (PyList (map msg_val conv)).
Proof.
  destruct conv as [|m ms].
  - split; intros tail; reflexivity.
  - split; intros tail; rewrite messages_text; repeat rewrite <- app_assoc;
      change (py "[" ++ ?x) with (91%N :: x); [|reflexivity].
    rewrite scan_once_array.
    erewrite JSONArray_of_objects;
      [| rewrite skip_ws_indent; apply (proj2 (scans_message d m))
       | rewrite message_text; reflexivity ].
    rewrite scan_elements; [reflexivity|].
    rewrite !length_app. change (length (Json.newline_indent 2)) with 5.
    pose proof (later_items_length ms). lia.
Qed.

(** The text of the whole document. *)
Lemma document_text (conv : list Message) (stamp : pystr) :
  Json.dumps (Memory.document conv stamp)
  = py "{" ++ Json.newline_indent 1
    ++ Json.encode_basestring (py "messages") ++ py ": "
    ++ concat (Json.iterencode 1 (PyList (map msg_val conv)))
    ++ py "," ++ Json.newline_indent 1
    ++ Json.encode_basestring (py "last_updated") ++ py ": "
    ++ Json.encode_basestring stamp
    ++ Json.newline_indent 0 ++ py "}" ++ [].
Proof.
  unfold Json.dumps, Memory.document.
  cbn [Json.iterencode Json.iterencode_dict Json.dict_items Json.atom].
  cbn [app concat]. rewrite !concat_app. cbn [app concat].
  now repeat rewrite <- app_assoc.
Qed.

Lemma loads_dumps_document (conv : list Message) (stamp : pystr) :
  Json.loads (Json.dumps (Memory.document conv stamp))
  = Some (Memory.document conv stamp).
Proof.
  unfold Json.loads. rewrite document_text.
  change (py "{" ++ ?x) with (123%N :: x).
  cbn [startswith Json.skip_ws]. decide_tests.
  match goal with |- context [Json.scan_once (S (length ?s))] =>
    assert (Hn : 3 <= length s)
      by (cbn [length]; rewrite length_app;
          change (length (Json.newline_indent 1)) with 3; lia);
    destruct (length s) as [|[|[|d]]]; try lia; clear Hn
  end.
  rewrite scan_once_object. unfold Json.JSONObject.
  rewrite skip_ws_indent, encoded_head. unfold quote at 1. scan_on.
  unfold quote at 1. decide_tests.
  match goal with |- context [Json.object_items _ (length ?s)] =>
    assert (Hn : 2 <= length s)
      by (rewrite length_app;
          change (length (Json.newline_indent 1)) with 3; lia);
    destruct (length s) as [|[|n]]; try lia; clear Hn
  end.
  rewrite (@object_item_more _ _ _ _ (scans_messages d conv)).
  rewrite (@object_item_last _ _ _ _ (scans_string (S (S d)) stamp)).
  reflexivity.
Qed.

(** ** Writing through the UTF-8 encoder *)

Lemma encodable_app (a b : pystr) :
  encodable a -> encodable b -> encodable (a ++ b).
Proof. intros Ha Hb. apply Forall_app. now split. Qed.

Lemma encodable_below (s : pystr) :
  Forall (fun c => (c < 55296)%N) s -> encodable s.
Proof.
  apply Forall_impl. intros c Hc. unfold is_surrogate.
  apply andb_false_iff. left. now apply N.leb_gt.
Qed.

Lemma encodable_ascii (s : string) : encodable (py s).
Proof.
  apply encodable_below. unfold py. apply Forall_map, Forall_forall.
  intros a _. pose proof (N_ascii_bounded a). lia.
Qed.

Lemma encodable_indent (k : nat) : encodable (Json.newline_indent k).
Proof.
  apply encodable_below. constructor; [reflexivity|].
  apply Forall_forall. intros c Hc. apply repeat_spec in Hc. now subst.
Qed.

Lemma hexdigit_below (d : N) : (d < 16)%N -> (hexdigit d < 55296)%N.
Proof.
  intros H. unfold hexdigit. destruct (N.ltb_spec d 10); lia.
Qed.

Lemma encodable_escape (c : N) :
  is_surrogate c = false -> encodable (Json.escape_char c).
Proof.
  intros Hc. unfold Json.escape_char.
  repeat match goal with
    | |- context [if ?b then _ else _] => destruct b
    end;
    try (apply encodable_below; repeat constructor; fail).
  - apply encodable_below. unfold hex4.
    repeat constructor; apply hexdigit_below, N.mod_lt; discriminate.
  - now repeat constructor.
Qed.

Lemma encodable_basestring (s : pystr) :
  encodable s -> encodable (Json.encode_basestring s).
Proof.
  intros H. unfold Json.encode_basestring.
  constructor; [reflexivity|]. apply encodable_app.
  - induction H as [|c s Hc _ IH]; [constructor|].
    cbn [flat_map]. apply encodable_app; trivial. now apply encodable_escape.
  - now repeat constructor.
Qed.

Lemma encode_error_encodable (chunk : pystr) :
  encodable chunk -> encode_error chunk = None.
Proof.
  intros H. unfold encode_error.
  assert (E : forall pos, surrogate_run chunk pos = None).
  { induction H as [|c s Hc _ IH]; intros pos; cbn [surrogate_run]; trivial.
    rewrite Hc. apply IH. }
  now rewrite E.
Qed.

Lemma write_chunks_encodable (chunks : list pystr) (written : pystr) :
  Forall encodable chunks ->
  write_chunks chunks written = (written ++ concat chunks, None).
Proof.
  intros H. revert written.
  induction H as [|c chunks Hc _ IH]; intros written; cbn [write_chunks concat].
  - now rewrite app_nil_r.
  - rewrite (encode_error_encodable Hc), IH. now rewrite app_assoc.
Qed.

Lemma uint_chars_encodable (u : Decimal.uint) : encodable (uint_chars u).
Proof.
  induction u; cbn [uint_chars]; constructor; trivial; reflexivity.
Qed.

Lemma zfill_encodable (w : nat) (n : N) : encodable (zfill w n).
Proof.
  unfold zfill. apply encodable_app.
  - apply Forall_forall. intros c Hc. apply repeat_spec in Hc. now subst.
  - apply uint_chars_encodable.
Qed.

Lemma isoformat_encodable (d : datetime) : encodable (isoformat d).
Proof.
  unfold isoformat.
  repeat (apply encodable_app;
          [first [apply zfill_encodable | apply encodable_ascii]|]).
  destruct (_ =? _)%N; [constructor|].
  apply encodable_app; [apply encodable_ascii | apply zfill_encodable].
Qed.

Ltac chunk_ok :=
  first [ assumption
        | apply encodable_ascii
        | apply encodable_indent
        | apply encodable_basestring; chunk_ok
        | apply encodable_app; chunk_ok ].

Ltac chunks_ok := repeat (constructor; [chunk_ok|]); try constructor.

Lemma message_chunks_encodable (m : Message) :
  encodable_message m -> Forall encodable (Json.iterencode 2 (msg_val m)).
Proof.
  intros (Hr & Ht & Hs).
  cbn [msg_val Json.iterencode Json.iterencode_dict Json.dict_items Json.atom
       app].
  chunks_ok.
Qed.

Lemma list_chunks_encodable (first : bool) (conv : list Message) :
  Forall encodable_message conv ->
  Forall encodable
    (Json.list_items (Json.iterencode 2) (Json.newline_indent 2) first
       (map msg_val conv)).
Proof.
  intros H. revert first.
  induction H as [|m conv Hm _ IH]; intros first; cbn [map Json.list_items].
  - constructor.
  - change (Json.atom (msg_val m)) with (@None pystr). cbv iota.
    cbn [app]. constructor.
    + destruct first; chunk_ok.
    + apply Forall_app. split; [now apply message_chunks_encodable | apply IH].
Qed.

Lemma document_chunks_encodable (conv : list Message) (stamp : pystr) :
  Forall encodable_message conv -> encodable stamp ->
  Forall encodable (Json.iterencode 0 (Memory.document conv stamp)).
Proof.
  intros Hc Hs. unfold Memory.document.
  cbn [Json.iterencode Json.iterencode_dict Json.dict_items Json.atom app].
  do 4 (constructor; [chunk_ok|]).
  rewrite !Forall_app. repeat split; [|chunks_ok..].
  destruct conv as [|m ms]; [chunks_ok|].
  unfold Json.iterencode_list. cbn [map]. apply Forall_app. split.
  - apply (list_chunks_encodable true Hc).
  - chunks_ok.
Qed.

(** ** The transcript store: saving and loading *)

(** Distinct transcripts are distinct lists of dictionaries. *)
Lemma msg_val_injective (a b : list Message) :
  map msg_val a = map msg_val b -> a = b.
Proof.
  revert b. induction a as [|[r t s] a IH]; intros [|[r' t' s'] b] H;
    try discriminate H; trivial.
  injection H as -> -> -> H. f_equal. now apply IH.
Qed.


(** C8, as stated, on a disk that can be written: the store whose one
    message is a lone surrogate. The encoder refuses the message, the file is
    left with the text written so far, and loading it gives the empty
    transcript. *)
Theorem save_then_load_surrogate :
  ~ (forall m : Memory.t,
        Memory.write_error m = None ->
        Memory._load_from_file
          (Memory.memory_file (snd (Memory._save_to_file m)))
        = Loaded (PyList (map msg_val (Memory.conversation m))) []).
Proof.
  intros H. specialize (H (fresh 50 surrogate_transcript) eq_refl).
  vm_compute in H. discriminate H.
Qed.

(** C8, amended. When the file can be opened for writing and no role, text
    or timestamp of the transcript holds a surrogate, [_save_to_file] raises
    nothing and leaves the transcript as it is, and [_load_from_file] on the
    file it wrote yields the same messages in the same order, with no
    warning. *)
Theorem save_then_load (m : Memory.t) :
  Memory.write_error m = None ->
  Forall encodable_message (Memory.conversation m) ->
  let r := Memory._save_to_file m in
  fst r = None
  /\ Memory.conversation (snd r) = Memory.conversation m
  /\ Memory._load_from_file (Memory.memory_file (snd r))
     = Loaded (PyList (map msg_val (Memory.conversation m))) [].
Proof.
  intros Hw Hc. unfold Memory._save_to_file. cbn [Memory.now].
  cbn [Memory.write_error Memory.conversation]. rewrite Hw.
  rewrite write_chunks_encodable
    by (apply document_chunks_encodable; [exact Hc | apply isoformat_encodable]).
  cbn [fst snd Memory.set_memory_file Memory.memory_file Memory.conversation
       app].
  repeat split. unfold Memory._load_from_file.
  change (concat (Json.iterencode 0 ?v)) with (Json.dumps v).
  rewrite loads_dumps_document. reflexivity.
Qed.

Lemma save_then_load_witness :
  Memory.write_error (fresh 50 greeting_exchange) = None
  /\ Forall encodable_message greeting_exchange
  /\ Memory._load_from_file
       (Memory.memory_file
          (snd (Memory._save_to_file (fresh 50 greeting_exchange))))
     = Loaded (PyList (map msg_val greeting_exchange)) [].
Proof.
  assert (H : Forall encodable_message greeting_exchange)
    by (repeat constructor).
  split; [reflexivity|]. split; [exact H|].
  exact (proj2 (proj2 (@save_then_load (fresh 50 greeting_exchange)
                         eq_refl H))).
Defined.

(** ** Further properties of the transcript store *)

(** X1. After each of a sequence of valid calls, on a store whose bound is
    positive and that starts within it, the store holds the most recent
    [max_history] messages of the initial transcript followed by those
    appended so far, in their order, and never more than [max_history]. *)
Theorem add_all_fifo (calls : list (pystr * pystr)) (m : Memory.t) (k : nat) :
  (0 < Memory.max_history m)%Z ->
  (Z.of_nat (length (Memory.conversation m)) <= Memory.max_history m)%Z ->
  Forall (fun c => valid_role (fst c)) calls ->
  let so_far := firstn k calls in
  let after := Memory.conversation (add_all so_far m) in
  after = lastn (Z.to_nat (Memory.max_history m))
            (Memory.conversation m
             ++ appended (Memory.clock m) (Memory.ticks m) so_far)
  /\ (Z.of_nat (length after) <= Memory.max_history m)%Z.
Proof.
  intros Hpos Hlen Hv. cbv zeta.
  assert (Hk : Forall (fun c : pystr * pystr => valid_role (fst c))
                 (firstn k calls)).
  { rewrite Forall_forall in *. intros c Hc. apply Hv.
    rewrite <- (firstn_skipn k calls). apply in_or_app. now left. }
  destruct (add_all_keeps_most_recent m Hpos Hlen Hk) as (E & L).
  split; [exact E|]. rewrite L. lia.
Qed.

Lemma add_all_fifo_witness :
  let calls := [(py "user", py "a"); (py "assistant", py "b");
                (py "user", py "c"); (py "assistant", py "d")] in
  (0 < Memory.max_history (fresh 3 []))%Z
  /\ (Z.of_nat (length (Memory.conversation (fresh 3 [])))
      <= Memory.max_history (fresh 3 []))%Z
  /\ Forall (fun c : pystr * pystr => valid_role (fst c)) calls
  /\ Memory.conversation (add_all (firstn 4 calls) (fresh 3 []))
     = [Msg (py "assistant") (py "b") (py "2024-01-01T00:00:00");
        Msg (py "user") (py "c") (py "2024-01-01T00:00:00");
        Msg (py "assistant") (py "d") (py "2024-01-01T00:00:00")].
Proof.
  cbv zeta.
  assert (Hv : Forall (fun c : pystr * pystr => valid_role (fst c))
                 [(py "user", py "a"); (py "assistant", py "b");
                  (py "user", py "c"); (py "assistant", py "d")])
    by (repeat constructor; (now left) || (now right)).
  assert (Hpos : (0 < Memory.max_history (fresh 3 []))%Z) by reflexivity.
  assert (Hlen : (Z.of_nat (length (Memory.conversation (fresh 3 [])))
                  <= Memory.max_history (fresh 3 []))%Z) by discriminate.
  split; [exact Hpos|]. split; [exact Hlen|]. split; [exact Hv|].
  exact (proj1 (@add_all_fifo _ (fresh 3 []) 4 Hpos Hlen Hv)).
Defined.

Lemma lastn_suffix {A : Type} (n : nat) (l : list A) :
  exists older, l = older ++ lastn n l.
Proof.
  exists (firstn (length l - n) l). unfold lastn.
  symmetry. apply firstn_skipn.
Qed.

Lemma get_history_lastn (n : Z) (m : Memory.t) :
  Memory.get_history (Some n) m = lastn (Z.to_nat n) (Memory.conversation m).
Proof.
  unfold Memory.get_history. destruct (Z.gtb_spec n 0) as [Hn | Hn].
  - apply slice_from_negative. lia.
  - replace (Z.to_nat n) with 0 by lia. unfold lastn.
    rewrite Nat.sub_0_r. symmetry. apply skipn_all.
Qed.

(** X2. [get_history(n)] returns the last [n] messages, in order; all of them
    when there are fewer, none when [n] is zero or negative. *)
Theorem get_history_most_recent (n : Z) (m : Memory.t) :
  let history := Memory.get_history (Some n) m in
  (exists older, Memory.conversation m = older ++ history)
  /\ length history = Nat.min (Z.to_nat n) (length (Memory.conversation m)).
Proof.
  cbv zeta. rewrite get_history_lastn. split.
  - apply lastn_suffix.
  - apply lastn_length.
Qed.

Lemma lastn_nonempty {A : Type} (n : nat) (l : list A) :
  0 < n -> l <> [] -> lastn n l <> [].
Proof.
  intros Hn Hl E. apply (f_equal (@length A)) in E.
  rewrite lastn_length in E. destruct l; [contradiction|]. simpl in E. lia.
Qed.

(** X3. The context block is the empty string exactly when no message is
    selected: the depth is not positive or the store is empty. Otherwise it
    opens with the header line. *)
Theorem context_block_empty_or_headed (n : Z) (m : Memory.t) :
  let context := Memory.get_context_for_prompt n m in
  (context = [] <-> (n <= 0)%Z \/ Memory.conversation m = [])
  /\ (context = []
      \/ exists lines,
           context = py "Previous conversation:" ++ newline ++ lines).
Proof.
  cbv zeta. unfold Memory.get_context_for_prompt. rewrite get_history_lastn.
  destruct (lastn (Z.to_nat n) (Memory.conversation m)) as [|msg rest] eqn:E.
  - split; [|now left]. split; [intros _|reflexivity].
    destruct (Z.leb_spec n 0) as [Hn | Hn]; [now left | right].
    destruct (Memory.conversation m) as [|x l] eqn:Ec; trivial.
    exfalso. revert E. apply lastn_nonempty; [lia | discriminate].
  - split.
    + split; [discriminate|]. intros [Hn | Hc]; exfalso.
      * replace (Z.to_nat n) with 0 in E by lia. unfold lastn in E.
        rewrite Nat.sub_0_r, skipn_all in E. discriminate E.
      * rewrite Hc in E. discriminate E.
    + right. eexists. cbn [map join]. reflexivity.
Qed.

(** What a save writes when the file can be opened and the text encoded. *)
Lemma save_writes_document (m : Memory.t) :
  Memory.write_error m = None ->
  Forall encodable_message (Memory.conversation m) ->
  let stamp := isoformat (Memory.clock m (Memory.ticks m)) in
  fst (Memory._save_to_file m) = None
  /\ Memory.memory_file (snd (Memory._save_to_file m))
     = Text (Json.dumps (Memory.document (Memory.conversation m) stamp))
  /\ Memory.console (snd (Memory._save_to_file m)) = Memory.console m.
Proof.
  intros Hw Hc. cbv zeta. unfold Memory._save_to_file. cbn [Memory.now].
  cbn [Memory.write_error Memory.conversation]. rewrite Hw.
  rewrite write_chunks_encodable
    by (apply document_chunks_encodable; [exact Hc | apply isoformat_encodable]).
  repeat split.
Qed.

Lemma load_saved_document (conv : list Message) (stamp : pystr) :
  Memory._load_from_file (Text (Json.dumps (Memory.document conv stamp)))
  = Loaded (PyList (map msg_val conv)) [].
Proof.
  unfold Memory._load_from_file. now rewrite loads_dumps_document.
Qed.

Lemma save_unwritable (m : Memory.t) (e : pystr) :
  Memory.write_error m = Some e ->
  fst (Memory._save_to_file m) = None
  /\ Memory.memory_file (snd (Memory._save_to_file m)) = Memory.memory_file m
  /\ Memory.console (snd (Memory._save_to_file m))
     = Memory.console m ++ [could_not_save e].
Proof.
  intros Hw. unfold Memory._save_to_file. cbn [Memory.now].
  cbn [Memory.write_error]. rewrite Hw. repeat split.
Qed.

Lemma encodable_message_trim (k : Z) (conv : list Message) :
  Forall encodable_message conv -> Forall encodable_message (trim k conv).
Proof.
  intros H. unfold trim, slice_from. destruct (_ >? _)%Z; trivial.
  rewrite Forall_forall in *. intros x Hx. apply H.
  match type of Hx with In _ (skipn ?n _) =>
    rewrite <- (firstn_skipn n conv) end.
  apply in_or_app. now right.
Qed.

Lemma valid_role_encodable (r : pystr) : valid_role r -> encodable r.
Proof. intros [-> | ->]; apply encodable_ascii. Qed.

(** The store that [add] hands to [_save_to_file]. *)
Lemma add_unfold (r text : pystr) (m : Memory.t) :
  valid_role r ->
  Memory.add r text m
  = Memory._save_to_file
      (Memory.set_conversation
         (trim (Memory.max_history m)
            (Memory.conversation m
             ++ [Msg r text (isoformat (Memory.clock m (Memory.ticks m)))]))
         (snd (Memory.now m))).
Proof.
  intros Hr. unfold Memory.add. now rewrite (valid_role_check Hr).
Qed.

Lemma add_encodable (r text : pystr) (m : Memory.t) :
  valid_role r -> Forall encodable_message (Memory.conversation m) ->
  encodable text ->
  Forall encodable_message
    (trim (Memory.max_history m)
       (Memory.conversation m
        ++ [Msg r text (isoformat (Memory.clock m (Memory.ticks m)))])).
Proof.
  intros Hr Hc Ht. apply encodable_message_trim, Forall_app. split; trivial.
  constructor; [|constructor]. repeat split; cbn [role message timestamp].
  - now apply valid_role_encodable.
  - exact Ht.
  - apply isoformat_encodable.
Qed.

(** X4. After an [add] that could write, the file holds what memory holds:
    loading it gives the messages of the store, trimmed as they are, in
    order. *)
Theorem add_keeps_file_in_step (r text : pystr) (m : Memory.t) :
  valid_role r ->
  Memory.write_error m = None ->
  Forall encodable_message (Memory.conversation m) ->
  encodable text ->
  let after := Memory.add r text m in
  fst after = None
  /\ Memory._load_from_file (Memory.memory_file (snd after))
     = Loaded (PyList (map msg_val (Memory.conversation (snd after)))) [].
Proof.
  intros Hr Hw Hc Ht. cbv zeta. rewrite (add_unfold text m Hr).
  match goal with |- context [Memory._save_to_file ?x] =>
    destruct (@save_writes_document x) as (H1 & H2 & _);
      [exact Hw | now apply add_encodable |];
    destruct (save_frame x) as (H3 & _)
  end.
  rewrite H1, H2, H3. split; [reflexivity|]. apply load_saved_document.
Qed.

Lemma add_keeps_file_in_step_witness :
  let after :=
    Memory.add (py "user") (py "one more") (fresh 2 greeting_exchange) in
  valid_role (py "user")
  /\ Memory.write_error (fresh 2 greeting_exchange) = None
  /\ Forall encodable_message greeting_exchange
  /\ encodable (py "one more")
  /\ fst after = None
  /\ Memory._load_from_file (Memory.memory_file (snd after))
     = Loaded (PyList (map msg_val (Memory.conversation (snd after)))) [].
Proof.
  cbv zeta.
  assert (Hr : valid_role (py "user")) by now left.
  assert (Hc : Forall encodable_message greeting_exchange)
    by (repeat constructor).
  assert (Ht : encodable (py "one more")) by (repeat constructor).
  split; [exact Hr|]. split; [reflexivity|]. split; [exact Hc|].
  split; [exact Ht|].
  exact (@add_keeps_file_in_step (py "user") (py "one more")
           (fresh 2 greeting_exchange) Hr eq_refl Hc Ht).
Defined.

(** X5. When the file cannot be opened for writing, a valid [add] still goes
    through: nothing is raised, the message is in memory, the file is what it
    was, and one warning is printed. *)
Theorem add_survives_write_failure (r text e : pystr) (m : Memory.t) :
  valid_role r ->
  Memory.write_error m = Some e ->
  let after := Memory.add r text m in
  fst after = None
  /\ Memory.conversation (snd after)
     = trim (Memory.max_history m)
         (Memory.conversation m
          ++ [Msg r text (isoformat (Memory.clock m (Memory.ticks m)))])
  /\ Memory.memory_file (snd after) = Memory.memory_file m
  /\ Memory.console (snd after) = Memory.console m ++ [could_not_save e].
Proof.
  intros Hr Hw. cbv zeta. rewrite (add_unfold text m Hr).
  match goal with |- context [Memory._save_to_file ?x] =>
    destruct (@save_unwritable x e Hw) as (H1 & H2 & H3);
    destruct (save_frame x) as (H4 & _)
  end.
  rewrite H1, H2, H3, H4. repeat split.
Qed.

Lemma add_survives_write_failure_witness :
  let after :=
    Memory.add (py "user") (py "hi") (read_only 50 greeting_exchange) in
  valid_role (py "user")
  /\ fst after = None
  /\ length (Memory.conversation (snd after)) = 3
  /\ Memory.memory_file (snd after) = Text (py "{}").
Proof.
  cbv zeta.
  assert (Hr : valid_role (py "user")) by now left.
  pose proof (@add_survives_write_failure (py "user") (py "hi") _
                (read_only 50 greeting_exchange) Hr eq_refl)
    as (H1 & H2 & H3 & _).
  split; [exact Hr|]. split; [exact H1|]. split; [now rewrite H2 | exact H3].
Defined.

Lemma clear_conversation (m : Memory.t) :
  fst (Memory.clear m) = None
  /\ Memory.conversation (snd (Memory.clear m)) = []
  /\ Memory.max_history (snd (Memory.clear m)) = Memory.max_history m.
Proof.
  unfold Memory.clear.
  match goal with |- context [Memory._save_to_file ?x] =>
    destruct (save_frame x) as (Hc & Hm & _) end.
  rewrite Hc, Hm. repeat split.
  destruct (Memory.write_error m) as [e|] eqn:Hw.
  - now apply (@save_unwritable (Memory.set_conversation [] m) e).
  - now apply (@save_writes_document (Memory.set_conversation [] m)).
Qed.

(** X6. [clear] never raises and always empties the store. When the file could
    be written it holds the empty transcript afterwards; when it could not,
    it still holds what it held, so the old history is back on the next
    start. *)
Theorem clear_empties_memory_and_file (m : Memory.t) :
  let after := Memory.clear m in
  fst after = None
  /\ Memory.get_statistics (snd after) = Stats 0 0 0
  /\ match Memory.write_error m with
     | None =>
         Memory._load_from_file (Memory.memory_file (snd after))
         = Loaded (PyList []) []
     | Some e =>
         Memory.memory_file (snd after) = Memory.memory_file m
         /\ Memory.console (snd after) = Memory.console m ++ [could_not_save e]
     end.
Proof.
  cbv zeta. destruct (clear_conversation m) as (H1 & H2 & _).
  split; [exact H1|]. split.
  - unfold Memory.get_statistics. now rewrite H2.
  - unfold Memory.clear. destruct (Memory.write_error m) as [e|] eqn:Hw.
    + now apply (@save_unwritable (Memory.set_conversation [] m) e).
    + destruct (@save_writes_document (Memory.set_conversation [] m))
        as (_ & Hf & _); [exact Hw | constructor |].
      rewrite Hf. apply (load_saved_document []).
Qed.

Lemma has_surrogate_app (a b : pystr) :
  has_surrogate a \/ has_surrogate b -> has_surrogate (a ++ b).
Proof. intros H. apply Exists_app. exact H. Qed.

Lemma encode_error_surrogate (chunk : pystr) :
  has_surrogate chunk -> exists msg, encode_error chunk = Some msg.
Proof.
  intros H. unfold encode_error.
  assert (E : forall pos, surrogate_run chunk pos <> None).
  { induction H as [c s Hc | c s _ IH]; intros pos; cbn [surrogate_run].
    - rewrite Hc. discriminate.
    - destruct (is_surrogate c); [discriminate | apply IH]. }
  specialize (E 0%N). destruct (surrogate_run chunk 0) as [[[start len] c]|].
  - eexists. reflexivity.
  - contradiction.
Qed.

Lemma write_chunks_surrogate (chunks : list pystr) (written : pystr) :
  Exists has_surrogate chunks ->
  exists e, snd (write_chunks chunks written) = Some e
            /\ exn_cls e = UnicodeEncodeError.
Proof.
  intros H. revert written.
  induction H as [c chunks Hc | c chunks _ IH]; intros written;
    cbn [write_chunks].
  - destruct (encode_error_surrogate Hc) as [msg ->]. eexists. now split.
  - destruct (encode_error c) as [msg|]; [eexists; now split | apply IH].
Qed.

Lemma escape_keeps_surrogate (s : pystr) :
  has_surrogate s -> has_surrogate (Json.encode_basestring s).
Proof.
  intros H. unfold Json.encode_basestring. right. apply has_surrogate_app.
  left. induction H as [c s Hc | c s _ IH]; cbn [flat_map];
    apply has_surrogate_app; [left | now right].
  assert (Hlo : (55296 <= c)%N).
  { unfold is_surrogate in Hc. apply andb_true_iff in Hc as [Hlo _].
    now apply N.leb_le. }
  unfold Json.escape_char.
  repeat match goal with
    | |- context [(c =? ?k)%N] => destruct (N.eqb_spec c k); [lia|]
    end.
  destruct (N.ltb_spec c 32); [lia|]. constructor. exact Hc.
Qed.

Lemma message_chunk_in_items (msg : Message) (l : list Message) :
  In msg l ->
  forall first,
    In (Json.encode_basestring (message msg))
       (Json.list_items (Json.iterencode 2) (Json.newline_indent 2) first
          (map msg_val l)).
Proof.
  induction l as [|m l IH]; intros Hin first; [inversion Hin|].
  cbn [map Json.list_items]. change (Json.atom (msg_val m)) with (@None pystr).
  cbv iota. cbn [app]. right. apply in_or_app.
  destruct Hin as [-> | Hin]; [left | right; now apply IH].
  cbn [msg_val Json.iterencode Json.iterencode_dict Json.dict_items Json.atom
       app].
  do 8 right. now left.
Qed.

Lemma message_chunk_in_document (msg : Message) (conv : list Message)
    (stamp : pystr) :
  In msg conv ->
  In (Json.encode_basestring (message msg))
     (Json.iterencode 0 (Memory.document conv stamp)).
Proof.
  intros Hin. unfold Memory.document.
  cbn [Json.iterencode Json.iterencode_dict Json.dict_items Json.atom app].
  do 4 right. apply in_or_app. left. apply in_or_app. left.
  destruct conv as [|m0 ms]; [inversion Hin|].
  unfold Json.iterencode_list. cbn [map]. apply in_or_app. left.
  now apply (@message_chunk_in_items msg (m0 :: ms)).
Qed.

Lemma trim_keeps_newest (k : Z) (conv : list Message) (msg : Message) :
  (0 <= k)%Z -> In msg (trim k (conv ++ [msg])).
Proof.
  intros Hk. unfold trim.
  destruct (_ >? _)%Z; [|apply in_or_app; right; now left].
  destruct (Z.eq_dec k 0) as [-> | Hk0].
  - unfold slice_from. change (- 0 <? 0)%Z with false. cbv iota.
    rewrite Z.min_l by lia. cbn [Z.to_nat skipn].
    apply in_or_app. right. now left.
  - rewrite slice_from_negative by lia. unfold lastn.
    rewrite length_app. cbn [length].
    rewrite skipn_app. apply in_or_app. right.
    replace (_ - length conv) with 0 by lia. now left.
Qed.

(** X7. A valid [add] whose text holds a surrogate, on a file that can be
    opened: the message is appended in memory first, and then the write
    raises [UnicodeEncodeError], which [add] lets through. *)
Theorem add_raises_after_appending (r text : pystr) (m : Memory.t) :
  valid_role r ->
  (0 <= Memory.max_history m)%Z ->
  Memory.write_error m = None ->
  has_surrogate text ->
  let after := Memory.add r text m in
  let newest := Msg r text (isoformat (Memory.clock m (Memory.ticks m))) in
  (exists e, fst after = Some e /\ exn_cls e = UnicodeEncodeError)
  /\ Memory.conversation (snd after)
     = trim (Memory.max_history m) (Memory.conversation m ++ [newest])
  /\ In newest (Memory.conversation (snd after)).
Proof.
  intros Hr Hk Hw Hs. cbv zeta. rewrite (add_unfold text m Hr).
  match goal with |- context [Memory._save_to_file ?x] =>
    destruct (save_frame x) as (Hc & _); set (store := x) in *
  end.
  rewrite Hc. split; [|split; [reflexivity | now apply trim_keeps_newest]].
  unfold Memory._save_to_file. cbn [Memory.now].
  change (Memory.write_error _) with (Memory.write_error m). rewrite Hw.
  match goal with |- context [write_chunks ?c ?w] =>
    destruct (@write_chunks_surrogate c w) as (e & He & Hcls);
    [|destruct (write_chunks c w) as [written err]]
  end.
  - apply Exists_exists. eexists. split.
    + apply message_chunk_in_document.
      apply (trim_keeps_newest (Memory.conversation m) _ Hk).
    + now apply escape_keeps_surrogate.
  - cbn [snd] in He. subst err. exists e. now split.
Qed.

Lemma add_raises_after_appending_witness :
  let after := Memory.add (py "user") [55296%N] (fresh 50 []) in
  valid_role (py "user")
  /\ has_surrogate [55296%N]
  /\ (exists e, fst after = Some e /\ exn_cls e = UnicodeEncodeError)
  /\ length (Memory.conversation (snd after)) = 1.
Proof.
  cbv zeta.
  assert (Hr : valid_role (py "user")) by now left.
  assert (Hs : has_surrogate [55296%N]) by (constructor; reflexivity).
  assert (Hk : (0 <= Memory.max_history (fresh 50 []))%Z) by discriminate.
  pose proof (@add_raises_after_appending (py "user") [55296%N]
                (fresh 50 []) Hr Hk eq_refl Hs) as (H1 & H2 & _).
  split; [exact Hr|]. split; [exact Hs|]. split; [exact H1|].
  now rewrite H2.
Defined.

(** X8. [get_formatted_history(n)] answers with its fixed sentence exactly when
    no message is selected: the number is not positive or the store is
    empty. Any other answer starts with a label. *)
Theorem formatted_history_sentinel (n : Z) (m : Memory.t) :
  Memory.get_formatted_history (Some n) m = py "No conversation history."
  <-> (n <= 0)%Z \/ Memory.conversation m = [].
Proof.
  unfold Memory.get_formatted_history. rewrite get_history_lastn.
  destruct (lastn (Z.to_nat n) (Memory.conversation m)) as [|msg rest] eqn:E.
  - split; [intros _|reflexivity].
    destruct (Z.leb_spec n 0) as [Hn | Hn]; [now left | right].
    destruct (Memory.conversation m) as [|x l] eqn:Ec; trivial.
    exfalso. revert E. apply lastn_nonempty; [lia | discriminate].
  - split.
    + intros H. exfalso. cbn [map join] in H. unfold Memory.role_name in H.
      destruct rest; destruct (pystr_eqb (role msg) (py "user"));
        discriminate H.
    + intros [Hn | Hc]; exfalso.
      * replace (Z.to_nat n) with 0 in E by lia. unfold lastn in E.
        rewrite Nat.sub_0_r, skipn_all in E. discriminate E.
      * rewrite Hc in E. discriminate E.
Qed.

(** ** Further properties of the turn protocol *)

Lemma add_goes_through (r text : pystr) (m : Memory.t) :
  valid_role r -> Forall encodable_message (Memory.conversation m) ->
  encodable text ->
  fst (Memory.add r text m) = None
  /\ Forall encodable_message (Memory.conversation (snd (Memory.add r text m))).
Proof.
  intros Hr Hc Ht. pose proof (add_encodable m Hr Hc Ht) as He.
  destruct (add_valid_role text m Hr) as (Hconv & _). rewrite Hconv.
  split; [|exact He]. rewrite (add_unfold text m Hr).
  destruct (Memory.write_error m) as [e|] eqn:Hw.
  - match goal with |- context [Memory._save_to_file ?x] =>
      now apply (@save_unwritable x e) end.
  - match goal with |- context [Memory._save_to_file ?x] =>
      now apply (@save_writes_document x) end.
Qed.

Lemma save_exchange_goes_through (user_input response : pystr)
    (m : Memory.t) :
  (0 < Memory.max_history m)%Z ->
  Forall encodable_message (Memory.conversation m) ->
  encodable user_input -> encodable response ->
  let after := JarvisAssistant.save_exchange user_input response m in
  fst after = None
  /\ Memory.conversation (snd after)
     = lastn (Z.to_nat (Memory.max_history m))
         (Memory.conversation m
          ++ [Msg (py "user") user_input
                (isoformat (Memory.clock m (Memory.ticks m)));
              Msg (py "assistant") response
                (isoformat (Memory.clock m (2 + Memory.ticks m)))]).
Proof.
  intros Hpos Hc Hu Ha. cbv zeta. unfold JarvisAssistant.save_exchange.
  assert (Huser : valid_role (py "user")) by now left.
  assert (Hasst : valid_role (py "assistant")) by now right.
  destruct (add_goes_through m Huser Hc Hu) as (H1 & Hc1).
  destruct (add_valid_role user_input m Huser) as (Hconv1 & Hm1 & Hk1 & Ht1).
  destruct (Memory.add (py "user") user_input m) as [err1 m1].
  cbn [fst snd] in *. subst err1.
  destruct (add_goes_through m1 Hasst Hc1 Ha) as (H2 & _).
  destruct (add_valid_role response m1 Hasst) as (Hconv2 & _).
  split; [exact H2|]. rewrite Hconv2, Hm1, Hk1, Ht1, Hconv1.
  rewrite !trim_positive by exact Hpos.
  rewrite lastn_app, <- app_assoc. reflexivity.
Qed.

(** X9. The successful turn: the engine answers and every text can be
    encoded. [respond] returns the answer, the prompt went to the engine
    once, and the store ends with the user turn followed by the assistant
    turn, trimmed to the most recent [max_history] messages. *)
Theorem respond_saves_exchange (user_input response : pystr)
    (a : JarvisAssistant.t) :
  let m := JarvisAssistant.memory a in
  let prompt :=
    PromptController.build_prompt (JarvisAssistant.prompt_controller a)
      user_input (Some m) true in
  has_text user_input ->
  generate (JarvisAssistant.engine a) prompt = inr response ->
  (0 < Memory.max_history m)%Z ->
  Forall encodable_message (Memory.conversation m) ->
  encodable user_input -> encodable response ->
  let r := JarvisAssistant.respond user_input true a in
  fst r = response
  /\ JarvisAssistant.requests (snd r) = JarvisAssistant.requests a ++ [prompt]
  /\ Memory.conversation (JarvisAssistant.memory (snd r))
     = lastn (Z.to_nat (Memory.max_history m))
         (Memory.conversation m
          ++ [Msg (py "user") user_input
                (isoformat (Memory.clock m (Memory.ticks m)));
              Msg (py "assistant") response
                (isoformat (Memory.clock m (2 + Memory.ticks m)))]).
Proof.
  intros m prompt Ht Hg Hpos Hc Hu Ha. cbv zeta.
  unfold JarvisAssistant.respond. rewrite (blank_has_text Ht).
  simpl JarvisAssistant.engine. simpl JarvisAssistant.prompt_controller.
  simpl JarvisAssistant.memory. fold m. fold prompt. rewrite Hg.
  destruct (save_exchange_goes_through m Hpos Hc Hu Ha) as (H1 & H2).
  destruct (JarvisAssistant.save_exchange user_input response m) as [err m2].
  cbn [fst snd] in *. subst err. repeat split. exact H2.
Qed.

Lemma respond_saves_exchange_witness :
  let a := assistant_with answering_engine (fresh 50 greeting_exchange) in
  has_text (py "hi")
  /\ Forall encodable_message greeting_exchange
  /\ fst (JarvisAssistant.respond (py "hi") true a) = py "At your service."
  /\ length (Memory.conversation
               (JarvisAssistant.memory
                  (snd (JarvisAssistant.respond (py "hi") true a)))) = 4.
Proof.
  cbv zeta.
  assert (Ht : has_text (py "hi")) by (constructor; reflexivity).
  assert (Hc : Forall encodable_message greeting_exchange)
    by (repeat constructor).
  assert (Hu : encodable (py "hi")) by (repeat constructor).
  assert (Ha : encodable (py "At your service.")) by apply encodable_ascii.
  pose proof (@respond_saves_exchange (py "hi") (py "At your service.")
                (assistant_with answering_engine (fresh 50 greeting_exchange))
                Ht eq_refl eq_refl Hc Hu Ha) as (H1 & _ & H3).
  split; [exact Ht|]. split; [exact Hc|]. split; [exact H1|].
  now rewrite H3.
Defined.



(** X11. For an input that is empty or whitespace throughout the stream yields
    the no-input message and nothing else, and the assistant is as it
    was. *)
Theorem respond_stream_blank_input (user_input : pystr) (save : bool)
    (a : JarvisAssistant.t) :
  whitespace_only user_input ->
  JarvisAssistant.respond_stream user_input save a
  = ([JarvisAssistant.no_input], a).
Proof.
  intros H. unfold JarvisAssistant.respond_stream.
  now rewrite (blank_whitespace H).
Qed.

Lemma respond_stream_blank_input_witness :
  whitespace_only [10; 32]%N
  /\ JarvisAssistant.respond_stream [10; 32]%N true
       (assistant_with answering_engine (fresh 50 greeting_exchange))
     = ([JarvisAssistant.no_input],
        assistant_with answering_engine (fresh 50 greeting_exchange)).
Proof.
  assert (H : whitespace_only [10; 32]%N) by (repeat constructor).
  split; [exact H|]. exact (@respond_stream_blank_input _ true _ H).
Defined.

(** X12. A stream that raises: what was yielded before the failure is followed by
    one apology carrying the text of the exception, whatever its class, and
    the store is left alone. *)
Theorem respond_stream_engine_raises (user_input : pystr) (save : bool)
    (chunks : list pystr) (e : exn) (a : JarvisAssistant.t) :
  has_text user_input ->
  generate_stream (JarvisAssistant.engine a)
    (PromptController.build_prompt (JarvisAssistant.prompt_controller a)
       user_input (Some (JarvisAssistant.memory a)) true)
  = (chunks, Some e) ->
  let r := JarvisAssistant.respond_stream user_input save a in
  fst r = chunks ++ [py "I apologize, but I encountered an issue: "
                     ++ exn_text e
                     ++ py ". Please try again or rephrase your request."]
  /\ JarvisAssistant.memory (snd r) = JarvisAssistant.memory a.
Proof.
  intros Ht Hg. cbv zeta. unfold JarvisAssistant.respond_stream.
  rewrite (blank_has_text Ht). simpl JarvisAssistant.engine.
  simpl JarvisAssistant.prompt_controller. simpl JarvisAssistant.memory.
  rewrite Hg. split; reflexivity.
Qed.

Lemma respond_stream_engine_raises_witness :
  let a := assistant_with exhausted_engine (fresh 50 greeting_exchange) in
  has_text (py "hi")
  /\ JarvisAssistant.memory (snd (JarvisAssistant.respond_stream (py "hi") true a))
     = fresh 50 greeting_exchange.
Proof.
  cbv zeta.
  assert (Ht : has_text (py "hi")) by (constructor; reflexivity).
  split; [exact Ht|].
  exact (proj2 (@respond_stream_engine_raises (py "hi") true [] _
                  (assistant_with exhausted_engine (fresh 50 greeting_exchange))
                  Ht eq_refl)).
Defined.

(** X13. An exception of [generate] that is not a [RuntimeError]: the apology
    carries its text after the words [Unexpected error: ], and the store is
    left alone. *)
Theorem respond_unexpected_error (user_input : pystr) (save : bool) (e : exn)
    (a : JarvisAssistant.t) :
  has_text user_input ->
  generate (JarvisAssistant.engine a)
    (PromptController.build_prompt (JarvisAssistant.prompt_controller a)
       user_input (Some (JarvisAssistant.memory a)) true)
  = inl e ->
  exn_cls e <> RuntimeError ->
  let r := JarvisAssistant.respond user_input save a in
  fst r = py "I apologize, but I encountered an issue: Unexpected error: "
          ++ exn_text e
          ++ py ". Please try again or rephrase your request."
  /\ JarvisAssistant.memory (snd r) = JarvisAssistant.memory a.
Proof.
  intros Ht Hg Hcls. cbv zeta. unfold JarvisAssistant.respond.
  rewrite (blank_has_text Ht). simpl JarvisAssistant.engine.
  simpl JarvisAssistant.prompt_controller. simpl JarvisAssistant.memory.
  rewrite Hg. split; [|reflexivity]. cbn [fst]. unfold JarvisAssistant.recover.
  unfold is_RuntimeError. destruct (exn_cls e); try contradiction;
    unfold PromptController.format_error_response;
    now rewrite <- !app_assoc.
Qed.

Lemma respond_unexpected_error_witness :
  let a := assistant_with failing_engine (fresh 50 greeting_exchange) in
  has_text (py "hi")
  /\ exn_cls dropped_connection <> RuntimeError
  /\ fst (JarvisAssistant.respond (py "hi") true a)
     = py "I apologize, but I encountered an issue: Unexpected error: connection lost. Please try again or rephrase your request."
  /\ JarvisAssistant.memory (snd (JarvisAssistant.respond (py "hi") true a))
     = fresh 50 greeting_exchange.
Proof.
  cbv zeta.
  assert (Ht : has_text (py "hi")) by (constructor; reflexivity).
  assert (Hn : exn_cls dropped_connection <> RuntimeError) by discriminate.
  split; [exact Ht|]. split; [exact Hn|].
  exact (@respond_unexpected_error (py "hi") true dropped_connection
           (assistant_with failing_engine (fresh 50 greeting_exchange))
           Ht eq_refl Hn).
Defined.

(** ** Roles *)

Lemma lookup_key_text (r : role_key) :
  PromptController.lookup (PromptController.key_text r) = Some r.
Proof. destruct r; reflexivity. Qed.

Lemma lookup_some (role : pystr) (r : role_key) :
  PromptController.lookup role = Some r -> role = PromptController.key_text r.
Proof.
  unfold PromptController.lookup.
  destruct (pystr_eqb role (py "general")) eqn:E1;
    [apply pystr_eqb_eq in E1; now intros [= <-]|].
  destruct (pystr_eqb role (py "tutor")) eqn:E2;
    [apply pystr_eqb_eq in E2; now intros [= <-]|].
  destruct (pystr_eqb role (py "coder")) eqn:E3;
    [apply pystr_eqb_eq in E3; now intros [= <-]|].
  destruct (pystr_eqb role (py "mentor")) eqn:E4;
    [apply pystr_eqb_eq in E4; now intros [= <-]|].
  discriminate.
Qed.

Lemma lookup_none (role : pystr) :
  PromptController.lookup role = None <->
  forall r, role <> PromptController.key_text r.
Proof.
  split.
  - intros H r ->. rewrite lookup_key_text in H. discriminate H.
  - intros H. destruct (PromptController.lookup role) as [r|] eqn:E; trivial.
    apply lookup_some in E. now apply H in E.
Qed.

(** X14. [set_role] accepts the four keys of the catalog, which are the keys
    [get_available_roles] lists, and nothing else; a key it refuses raises a
    [ValueError] that names it and leaves the role as it was. *)
Theorem set_role_accepts_catalog_keys (role : pystr)
    (pc : PromptController.t) :
  (In role (map fst PromptController.get_available_roles) <->
   exists r, PromptController.set_role role pc = (None, PromptController.Make r)
             /\ role = PromptController.key_text r)
  /\ (~ In role (map fst PromptController.get_available_roles) <->
      PromptController.set_role role pc
      = (Some (Exn ValueError
                 (py "Invalid role: " ++ role
                  ++ py ". Must be one of ['general', 'tutor', 'coder', 'mentor']")),
         pc)).
Proof.
  assert (Hin : In role (map fst PromptController.get_available_roles) <->
                exists r, role = PromptController.key_text r).
  { cbn. split.
    - intros [<- | [<- | [<- | [<- | []]]]];
        [exists general | exists tutor | exists coder | exists mentor];
        reflexivity.
    - intros [[] ->]; cbn; auto. }
  unfold PromptController.set_role, PromptController.invalid_role.
  destruct (PromptController.lookup role) as [r|] eqn:E.
  - pose proof (lookup_some _ E) as Hr. split; split.
    + intros _. exists r. now split.
    + intros _. apply Hin. now exists r.
    + intros H. exfalso. apply H, Hin. now exists r.
    + discriminate.
  - pose proof (proj1 (lookup_none role) E) as Hn. split; split.
    + intros H. apply Hin in H as [r ->]. now destruct (Hn r).
    + intros (r & H & _). discriminate H.
    + reflexivity.
    + intros _ H. apply Hin in H as [r ->]. now destruct (Hn r).
Qed.

Lemma set_own_controller (a : JarvisAssistant.t) :
  JarvisAssistant.set_prompt_controller (JarvisAssistant.prompt_controller a) a
  = a.
Proof. now destruct a. Qed.

(** X15. [change_role] with a key outside the catalog raises nothing: it returns
    a message that names the key, and the assistant is as it was. *)
Theorem change_role_unknown_key (role : pystr) (a : JarvisAssistant.t) :
  (forall r, role <> PromptController.key_text r) ->
  JarvisAssistant.change_role role a
  = (py "Error changing role: Invalid role: " ++ role
     ++ py ". Must be one of ['general', 'tutor', 'coder', 'mentor']",
     a).
Proof.
  intros H. apply lookup_none in H.
  unfold JarvisAssistant.change_role, PromptController.set_role. rewrite H.
  rewrite set_own_controller. unfold PromptController.invalid_role.
  cbn [exn_text]. reflexivity.
Qed.

Lemma change_role_unknown_key_witness :
  let a := assistant_with answering_engine (fresh 50 greeting_exchange) in
  (forall r, py "pirate" <> PromptController.key_text r)
  /\ snd (JarvisAssistant.change_role (py "pirate") a) = a.
Proof.
  cbv zeta.
  assert (H : forall r, py "pirate" <> PromptController.key_text r)
    by (intros []; discriminate).
  split; [exact H|].
  exact (f_equal snd (@change_role_unknown_key (py "pirate")
                        (assistant_with answering_engine
                           (fresh 50 greeting_exchange)) H)).
Defined.

(** X16. [change_role] with a key of the catalog switches the role and touches
    nothing else: the message gives the name and description of the new
    role, the history is kept, and the next prompt is the new role's system
    prompt over the same context block. *)
Theorem change_role_keeps_history (r : role_key) (user_input : pystr)
    (a : JarvisAssistant.t) :
  let after := JarvisAssistant.change_role (PromptController.key_text r) a in
  fst after
  = py "Role changed to: " ++ PromptController.name (PromptController.ROLES r)
    ++ py " - " ++ PromptController.description (PromptController.ROLES r)
  /\ JarvisAssistant.prompt_controller (snd after) = PromptController.Make r
  /\ JarvisAssistant.memory (snd after) = JarvisAssistant.memory a
  /\ PromptController.build_prompt (JarvisAssistant.prompt_controller (snd after))
       user_input (Some (JarvisAssistant.memory (snd after))) true
     = composed (PromptController.system_prompt (PromptController.ROLES r))
         (Memory.get_context_for_prompt 10 (JarvisAssistant.memory a))
         user_input.
Proof.
  cbv zeta. unfold JarvisAssistant.change_role, PromptController.set_role.
  rewrite lookup_key_text. cbn [fst snd PromptController.get_role_info
    PromptController.current_role JarvisAssistant.set_prompt_controller
    JarvisAssistant.prompt_controller JarvisAssistant.memory].
  repeat split. apply build_prompt_composed.
Qed.

(** X17. [start_conversation] returns the greeting of the current role, which
    carries the role's display name; it marks the conversation as started,
    and neither the store nor the engine is touched. *)
Theorem start_conversation_greets (a : JarvisAssistant.t) :
  let r := JarvisAssistant.start_conversation a in
  let role_name :=
    PromptController.name
      (PromptController.ROLES
         (PromptController.current_role (JarvisAssistant.prompt_controller a))) in
  (exists before after, fst r = before ++ role_name ++ after)
  /\ JarvisAssistant._conversation_started (snd r) = true
  /\ JarvisAssistant.memory (snd r) = JarvisAssistant.memory a
  /\ JarvisAssistant.requests (snd r) = JarvisAssistant.requests a
  /\ JarvisAssistant.prompt_controller (snd r)
     = JarvisAssistant.prompt_controller a.
Proof.
  cbv zeta. split; [|repeat split].
  unfold JarvisAssistant.start_conversation, PromptController.build_greeting.
  cbn [fst].
  destruct (PromptController.current_role _); eexists; eexists; reflexivity.
Qed.

(** ** Prompts *)

(** X18. The prompt depends on the store through its ten most recent messages
    only. *)
Theorem build_prompt_last_ten (pc : PromptController.t) (user_input : pystr)
    (m m' : Memory.t) :
  lastn 10 (Memory.conversation m) = lastn 10 (Memory.conversation m') ->
  PromptController.build_prompt pc user_input (Some m) true
  = PromptController.build_prompt pc user_input (Some m') true.
Proof.
  intros H. unfold PromptController.build_prompt, Memory.get_context_for_prompt.
  rewrite !get_history_lastn. change (Z.to_nat 10) with 10. now rewrite H.
Qed.

Lemma build_prompt_last_ten_witness :
  let m := fresh 50 (greeting_exchange ++ ten_turns) in
  let m' := fresh 50 (ten_turns ++ ten_turns) in
  lastn 10 (Memory.conversation m) = lastn 10 (Memory.conversation m')
  /\ PromptController.build_prompt (PromptController.Make tutor) (py "hi")
       (Some m) true
     = PromptController.build_prompt (PromptController.Make tutor) (py "hi")
         (Some m') true.
Proof.
  cbv zeta.
  assert (H : lastn 10 (Memory.conversation
                          (fresh 50 (greeting_exchange ++ ten_turns)))
              = lastn 10 (Memory.conversation
                            (fresh 50 (ten_turns ++ ten_turns))))
    by reflexivity.
  split; [exact H|].
  exact (@build_prompt_last_ten (PromptController.Make tutor) (py "hi") _ _ H).
Defined.

(** X19. [clear_memory] never raises; afterwards the statistics are zero and the
    next prompt carries no previous conversation. *)
Theorem clear_memory_starts_fresh (user_input : pystr)
    (a : JarvisAssistant.t) :
  let after := JarvisAssistant.clear_memory a in
  fst after = inr (py "Conversation history cleared. Starting fresh!")
  /\ JarvisAssistant.get_conversation_stats (snd after) = Stats 0 0 0
  /\ PromptController.build_prompt (JarvisAssistant.prompt_controller (snd after))
       user_input (Some (JarvisAssistant.memory (snd after))) true
     = PromptController.get_system_prompt (JarvisAssistant.prompt_controller a)
       ++ newline ++ newline
       ++ py "User: " ++ user_input ++ newline ++ py "Assistant:".
Proof.
  cbv zeta. unfold JarvisAssistant.clear_memory.
  destruct (clear_conversation (JarvisAssistant.memory a)) as (H1 & H2 & _).
  destruct (Memory.clear (JarvisAssistant.memory a)) as [err m].
  cbn [fst snd] in *. subst err.
  cbn [fst snd JarvisAssistant.set_memory JarvisAssistant.memory
       JarvisAssistant.prompt_controller].
  split; [reflexivity|]. split.
  - unfold JarvisAssistant.get_conversation_stats, Memory.get_statistics.
    cbn [JarvisAssistant.memory JarvisAssistant.set_memory]. now rewrite H2.
  - cbn [JarvisAssistant.memory JarvisAssistant.set_memory
         JarvisAssistant.prompt_controller].
    unfold PromptController.build_prompt, Memory.get_context_for_prompt,
      Memory.get_history. rewrite H2.
    change (10 >? 0)%Z with true. cbv iota. unfold slice_from.
    rewrite skipn_nil. cbn [falsy join app].
    now rewrite <- ?app_assoc.
Qed.

(** ** The engine *)

(** X20. Whatever the provider raises, [generate] raises a [RuntimeError], with
    one of three texts; the last one carries the provider's own text. *)
Theorem generate_raises_runtime_error (lower : pystr -> pystr)
    (model : pystr -> exn + pystr) (prompt : pystr) (e : exn) :
  GeminiEngine.generate lower model prompt = inl e ->
  exn_cls e = RuntimeError
  /\ (exn_text e = py "Invalid API key. Please check your configuration."
      \/ exn_text e = py "API quota exceeded. Please try again later."
      \/ exists cause, model prompt = inl cause
                       /\ exn_text e
                          = py "Generation failed: " ++ exn_text cause).
Proof.
  unfold GeminiEngine.generate.
  destruct (model prompt) as [cause | text].
  - destruct (contains (py "api key") _); [intros [= <-]; cbn; auto|].
    destruct (contains (py "quota") _); [intros [= <-]; cbn; auto|].
    destruct (contains (py "safety") _); [discriminate|].
    intros [= <-]. cbn. split; trivial. right. right. now exists cause.
  - destruct (falsy text); discriminate.
Qed.

Lemma generate_raises_runtime_error_witness :
  GeminiEngine.generate ascii_lower quota_model (py "hi")
  = inl (Exn RuntimeError (py "API quota exceeded. Please try again later."))
  /\ exn_cls (Exn RuntimeError
                (py "API quota exceeded. Please try again later."))
     = RuntimeError.
Proof.
  assert (H : GeminiEngine.generate ascii_lower quota_model (py "hi")
              = inl (Exn RuntimeError
                       (py "API quota exceeded. Please try again later.")))
    by reflexivity.
  split; [exact H|].
  exact (proj1 (@generate_raises_runtime_error _ _ _ _ H)).
Defined.

Lemma generate_returns_text_nonempty (lower : pystr -> pystr)
    (model : pystr -> exn + pystr) (prompt text : pystr) :
  GeminiEngine.generate lower model prompt = inr text -> text <> [].
Proof.
  unfold GeminiEngine.generate.
  destruct (model prompt) as [cause | answer].
  - destruct (contains (py "api key") _); [discriminate|].
    destruct (contains (py "quota") _); [discriminate|].
    destruct (contains (py "safety") _); [|discriminate].
    intros [= <-]. discriminate.
  - destruct answer as [|c answer]; cbn [falsy]; intros [= <-]; discriminate.
Qed.

(** X21. What [generate] returns is never the empty string: it is the provider's
    text when that is not empty, and a fixed sentence otherwise. *)
Theorem generate_returns_text (lower : pystr -> pystr)
    (model : pystr -> exn + pystr) (prompt text : pystr) :
  GeminiEngine.generate lower model prompt = inr text ->
  text <> []
  /\ (model prompt = inr text
      \/ text = py "I apologize, but I couldn't generate a response. Please try again."
      \/ text = py "I cannot provide a response to that request due to safety guidelines.").
Proof.
  unfold GeminiEngine.generate.
  destruct (model prompt) as [cause | answer].
  - destruct (contains (py "api key") _); [discriminate|].
    destruct (contains (py "quota") _); [discriminate|].
    destruct (contains (py "safety") _); [|discriminate].
    intros [= <-]. split; [discriminate | auto].
  - destruct answer as [|c answer]; cbn [falsy]; intros [= <-].
    + split; [discriminate | auto].
    + split; [discriminate | auto].
Qed.

Lemma generate_returns_text_witness :
  GeminiEngine.generate ascii_lower silent_model (py "hi")
  = inr (py "I apologize, but I couldn't generate a response. Please try again.")
  /\ py "I apologize, but I couldn't generate a response. Please try again."
     <> [].
Proof.
  assert (H : GeminiEngine.generate ascii_lower silent_model (py "hi")
              = inr (py "I apologize, but I couldn't generate a response. Please try again."))
    by reflexivity.
  split; [exact H|].
  exact (proj1 (@generate_returns_text _ _ _ _ H)).
Defined.

(** X22. A healthy report carries the model name and a test response of at least
    one and at most 53 characters. *)
Theorem health_check_response_is_short (lower : pystr -> pystr)
    (model : pystr -> exn + pystr) (model_name reported response : pystr) :
  GeminiEngine.health_check lower model model_name = GeminiEngine.Healthy reported response ->
  reported = model_name /\ 1 <= length response <= 53.
Proof.
  unfold GeminiEngine.health_check.
  destruct (GeminiEngine.generate lower model (py "Hello")) as [e | text] eqn:E;
    [discriminate|].
  apply generate_returns_text_nonempty in E.
  remember (firstn 50 text) as head eqn:Hhead.
  destruct (Nat.ltb_spec 50 (length text)) as [H | H]; intros [= <- <-];
    (split; [reflexivity|]).
  - rewrite length_app, Hhead, firstn_length_le by lia. cbn. lia.
  - destruct text; [contradiction | cbn in *; lia].
Qed.

Lemma health_check_response_is_short_witness :
  GeminiEngine.health_check ascii_lower verbose_model (py "gemini-pro")
  = GeminiEngine.Healthy (py "gemini-pro") (repeat 97%N 50 ++ py "...")
  /\ 1 <= length (repeat 97%N 50 ++ py "...") <= 53.
Proof.
  assert (H : GeminiEngine.health_check ascii_lower verbose_model
                (py "gemini-pro")
              = GeminiEngine.Healthy (py "gemini-pro")
                  (repeat 97%N 50 ++ py "..."))
    by reflexivity.
  split; [exact H|].
  exact (proj2 (@health_check_response_is_short _ _ _ _ _ H)).
Defined.

(** ** Settings *)

(** X23. Once [load_api_key] has returned a key, every later call returns that
    key and leaves the settings alone, whatever the environment holds by
    then. *)
Theorem api_key_is_cached (env env' : option pystr) (key : pystr)
    (s s' : Settings.t) :
  Settings.load_api_key env s = (inr key, s') ->
  Settings.load_api_key env' s' = (inr key, s')
  /\ Settings.validate env' s' = (true, s').
Proof.
  unfold Settings.validate, Settings.load_api_key. intros H.
  assert (E : Settings._api_key s' = Some key /\ falsy key = false).
  { destruct (match Settings._api_key s with
              | Some k => Some k | None => env end) as [k|];
      [|discriminate H].
    destruct (falsy k) eqn:Hk; [discriminate H|].
    injection H as <- <-. now split. }
  destruct E as [E1 E2]. rewrite E1, E2. destruct s' as [k'].
  cbn in E1. subst k'. now split.
Qed.

Lemma api_key_is_cached_witness :
  Settings.load_api_key (Some (py "k-123")) Settings.__init__
  = (inr (py "k-123"), Settings.Make (Some (py "k-123")))
  /\ Settings.load_api_key None (Settings.Make (Some (py "k-123")))
     = (inr (py "k-123"), Settings.Make (Some (py "k-123"))).
Proof.
  assert (H : Settings.load_api_key (Some (py "k-123")) Settings.__init__
              = (inr (py "k-123"), Settings.Make (Some (py "k-123"))))
    by reflexivity.
  split; [exact H|].
  exact (proj1 (@api_key_is_cached _ None _ _ _ H)).
Defined.

(** X24. A variable that was missing at the first call is read again at the
    next one; a variable that was set to the empty string is not: the empty
    key stays, and every later call fails. *)
Theorem api_key_missing_or_empty (key : pystr) (s : Settings.t) :
  Settings._api_key s = None ->
  key <> [] ->
  let after_missing := snd (Settings.load_api_key None s) in
  let after_empty := snd (Settings.load_api_key (Some []) s) in
  fst (Settings.load_api_key None s) = inl Settings.key_missing
  /\ fst (Settings.load_api_key (Some []) s) = inl Settings.key_missing
  /\ fst (Settings.load_api_key (Some key) after_missing) = inr key
  /\ fst (Settings.load_api_key (Some key) after_empty)
     = inl Settings.key_missing.
Proof.
  intros Hs Hk. cbv zeta. unfold Settings.load_api_key. rewrite Hs.
  cbn. rewrite (falsy_false Hk). repeat split.
Qed.

Lemma api_key_missing_or_empty_witness :
  Settings._api_key Settings.__init__ = None
  /\ py "k-123" <> []
  /\ fst (Settings.load_api_key (Some (py "k-123"))
            (snd (Settings.load_api_key (Some []) Settings.__init__)))
     = inl Settings.key_missing.
Proof.
  assert (Hk : py "k-123" <> []) by discriminate.
  split; [reflexivity|]. split; [exact Hk|].
  exact (proj2 (proj2 (proj2 (@api_key_missing_or_empty (py "k-123")
                                Settings.__init__ eq_refl Hk)))).
Defined.

(** ** The sidebar *)

(** X25. The mode the sidebar preselects is the current role for [general],
    [tutor] and [mentor]; for [coder], whose display name does not contain
    its key, it is the first option. *)
Theorem sidebar_preselects_role (a : JarvisAssistant.t) :
  let r := PromptController.current_role (JarvisAssistant.prompt_controller a) in
  nth_error (map fst PromptController.get_available_roles) (App.current_index a)
  = Some (PromptController.key_text r)
  <-> r <> coder.
Proof.
  cbv zeta. unfold App.current_index, JarvisAssistant.get_current_role,
    PromptController.get_role_info.
  destruct (PromptController.current_role _); vm_compute; split;
    congruence.
Qed.

(** ** Export *)

Lemma export_frame (filename open_error : option pystr) (m : Memory.t) :
  let m' := snd (Memory.export_conversation filename open_error m) in
  Memory.conversation m' = Memory.conversation m
  /\ Memory.memory_file m' = Memory.memory_file m
  /\ Memory.console m' = Memory.console m
  /\ Memory.max_history m' = Memory.max_history m.
Proof.
  cbv zeta. unfold Memory.export_conversation.
  destruct filename as [f|], open_error as [e|]; cbn [snd];
    try (destruct (write_chunks _ _) as [text [e'|]]); now cbn.
Qed.

(** X26. An export that cannot open its file: the store raises a [RuntimeError]
    whose text already starts with [Failed to export conversation: ], and
    the assistant puts the same words in front of it again. Nothing is
    written and the transcript and its file are untouched. *)
Theorem export_failure_message (filename : option pystr) (e : pystr)
    (a : JarvisAssistant.t) :
  let r := JarvisAssistant.export_conversation filename (Some e) a in
  fst (fst r)
  = py "Failed to export conversation: Failed to export conversation: " ++ e
  /\ snd (fst r) = None
  /\ Memory.conversation (JarvisAssistant.memory (snd r))
     = Memory.conversation (JarvisAssistant.memory a)
  /\ Memory.memory_file (JarvisAssistant.memory (snd r))
     = Memory.memory_file (JarvisAssistant.memory a).
Proof.
  cbv zeta. unfold JarvisAssistant.export_conversation,
    Memory.export_conversation.
  destruct filename as [f|]; cbn; repeat split.
Qed.

Lemma encodable_rule (c : N) (n : nat) : (c < 55296)%N -> encodable (repeat c n).
Proof.
  intros Hc. apply encodable_below, Forall_forall.
  intros x Hx. apply repeat_spec in Hx. now subst.
Qed.

Lemma encodable_newline : encodable newline.
Proof. now repeat constructor. Qed.

Lemma encodable_role_name (msg : Message) : encodable (Memory.role_name msg).
Proof.
  unfold Memory.role_name. destruct (pystr_eqb _ _); apply encodable_ascii.
Qed.

Lemma export_chunks_encodable (conv : list Message) :
  Forall encodable_message conv -> Forall encodable (Memory.export_chunks conv).
Proof.
  intros H. unfold Memory.export_chunks.
  apply Forall_app. split.
  - constructor; [|constructor; [|constructor]].
    + apply encodable_app; [apply encodable_ascii | apply encodable_newline].
    + apply encodable_app; [now apply encodable_rule|].
      apply encodable_app; apply encodable_newline.
  - induction H as [|msg conv (Hr & Ht & Hs) _ IH]; [constructor|].
    cbn [flat_map app].
    constructor; [|constructor; [|constructor; [|exact IH]]].
    + apply encodable_app; [apply encodable_ascii|].
      apply encodable_app; [exact Hs|].
      apply encodable_app; [apply encodable_ascii|].
      apply encodable_app; [apply encodable_role_name|].
      apply encodable_app; [apply encodable_ascii | apply encodable_newline].
    + apply encodable_app; [exact Ht|].
      apply encodable_app; apply encodable_newline.
    + apply encodable_app; [now apply encodable_rule|].
      apply encodable_app; apply encodable_newline.
Qed.

Lemma export_text_split (older newer : list Message) (msg : Message) :
  concat (Memory.export_chunks (older ++ msg :: newer))
  = concat (Memory.export_chunks older)
    ++ (py "[" ++ timestamp msg ++ py "] " ++ Memory.role_name msg
        ++ py ":" ++ newline)
    ++ (message msg ++ newline ++ newline)
    ++ (repeat 45%N 50 ++ newline ++ newline)
    ++ concat (flat_map
                 (fun msg =>
                    [py "[" ++ timestamp msg ++ py "] " ++ Memory.role_name msg
                     ++ py ":" ++ newline;
                     message msg ++ newline ++ newline;
                     repeat 45%N 50 ++ newline ++ newline])
                 newer).
Proof.
  unfold Memory.export_chunks. rewrite flat_map_app, !concat_app.
  cbn [flat_map]. rewrite <- app_assoc. do 2 f_equal.
Qed.

(** X27. A successful export returns the path it was given and leaves the store
    as it was; the text written holds, for every message of the transcript,
    its timestamp in brackets, its label, its text and a rule. *)
Theorem export_holds_every_message (path : pystr) (msg : Message)
    (m : Memory.t) :
  Forall encodable_message (Memory.conversation m) ->
  In msg (Memory.conversation m) ->
  exists before after,
    Memory.export_conversation (Some path) None m
    = (inr path,
       Some (before
             ++ (py "[" ++ timestamp msg ++ py "] " ++ Memory.role_name msg
                 ++ py ":" ++ newline)
             ++ (message msg ++ newline ++ newline)
             ++ (repeat 45%N 50 ++ newline ++ newline)
             ++ after),
       m).
Proof.
  intros Hc Hin. unfold Memory.export_conversation.
  rewrite write_chunks_encodable by now apply export_chunks_encodable.
  apply in_split in Hin as (older & newer & ->).
  rewrite export_text_split. eexists. eexists. reflexivity.
Qed.

Lemma export_holds_every_message_witness :
  let msg := Msg (py "assistant") (py "Good day.") (py "2024-01-01T00:00:01") in
  Forall encodable_message greeting_exchange
  /\ In msg greeting_exchange
  /\ exists before after,
       Memory.export_conversation (Some (py "out.txt")) None
         (fresh 50 greeting_exchange)
       = (inr (py "out.txt"),
          Some (before
                ++ (py "[" ++ timestamp msg ++ py "] " ++ Memory.role_name msg
                    ++ py ":" ++ newline)
                ++ (message msg ++ newline ++ newline)
                ++ (repeat 45%N 50 ++ newline ++ newline)
                ++ after),
          fresh 50 greeting_exchange).
Proof.
  cbv zeta.
  assert (Hc : Forall encodable_message greeting_exchange)
    by (repeat constructor).
  assert (Hin : In (Msg (py "assistant") (py "Good day.")
                      (py "2024-01-01T00:00:01")) greeting_exchange)
    by (right; now left).
  split; [exact Hc|]. split; [exact Hin|].
  exact (@export_holds_every_message (py "out.txt") _
           (fresh 50 greeting_exchange) Hc Hin).
Defined.
